(** * kgent-api: the resource/kind resolution chain

    A shallow embedding of [mappingFor] as it is written in
    [api/services/resourceSvc.go] (the REST service) and in
    [restmapper/restmapper.go] (the standalone example), together with the
    parts of [k8s.io/apimachinery] they call.

    The REST mapper is a Go interface: the two functions only ever talk to
    it through [KindFor] and [RESTMapping].  The embedding keeps that
    boundary explicit.  A resolver is a finite tree of calls ([Prog]); an
    implementation of the interface ([meta.RESTMapper]) is a pair of
    state-passing handlers; [run] plays one against the other and records
    every call with its answer. *)

From Stdlib Require Import String Ascii List Bool Arith Lia.
From ExtLib Require Import Structures.Monad.
Import ListNotations.
Import MonadNotation.
Local Open Scope string_scope.
Local Open Scope monad_scope.

(** ** Strings: the two [strings] functions the parsers rest on *)

(** [strings.Count(s, ".")]. *)
Fixpoint CountDot (s : string) : nat :=
  match s with
  | EmptyString => 0
  | String c rest => (if Ascii.eqb c "." then 1 else 0) + CountDot rest
  end.

(** [strings.Index(s, ".")] followed by the two slices [s[:i]] and
    [s[i+1:]]; [None] stands for index [-1]. *)
Fixpoint CutDot (s : string) : option (string * string) :=
  match s with
  | EmptyString => None
  | String c rest =>
      if Ascii.eqb c "." then Some (EmptyString, rest)
      else match CutDot rest with
           | Some (before, after) => Some (String c before, after)
           | None => None
           end
  end.

(** ** k8s.io/apimachinery/pkg/runtime/schema *)

Module schema.

Record GroupVersionKind : Type := mkGVK
  { gvk_Group : string; gvk_Version : string; gvk_Kind : string }.

Record GroupVersionResource : Type := mkGVR
  { gvr_Group : string; gvr_Version : string; gvr_Resource : string }.

Record GroupKind : Type := mkGK
  { gk_Group : string; gk_Kind : string }.

Record GroupResource : Type := mkGR
  { gr_Group : string; gr_Resource : string }.

(** The zero value [schema.GroupVersionKind{}]. *)
Definition zeroGVK : GroupVersionKind := mkGVK "" "" "".

(** [func (gvk GroupVersionKind) Empty() bool]: all three fields have
    length zero. *)
Definition gvk_Empty (gvk : GroupVersionKind) : bool :=
  Nat.eqb (String.length (gvk_Group gvk)) 0
  && Nat.eqb (String.length (gvk_Version gvk)) 0
  && Nat.eqb (String.length (gvk_Kind gvk)) 0.

(** [func (gvk GroupVersionKind) GroupKind() GroupKind]. *)
Definition gvk_GroupKind (gvk : GroupVersionKind) : GroupKind :=
  mkGK (gvk_Group gvk) (gvk_Kind gvk).

(** [func (gr GroupResource) WithVersion(version string)]. *)
Definition gr_WithVersion (gr : GroupResource) (version : string)
  : GroupVersionResource :=
  mkGVR (gr_Group gr) version (gr_Resource gr).

(** [func (gk GroupKind) WithVersion(version string)]. *)
Definition gk_WithVersion (gk : GroupKind) (version : string)
  : GroupVersionKind :=
  mkGVK (gk_Group gk) version (gk_Kind gk).

(** Modelled from the spec: [schema.ParseGroupResource] belongs to the
    imported apimachinery library, whose sources are not part of this
    repository.  The token is cut at its first dot: what precedes it is
    the resource, what follows is the group; a token without a dot is a
    bare resource. *)
Definition ParseGroupResource (gr : string) : GroupResource :=
  match CutDot gr with
  | Some (resource, group) => mkGR group resource
  | None => mkGR "" gr
  end.

(** Modelled from the spec: [schema.ParseGroupKind], the kind-shaped twin
    of [ParseGroupResource] (same library, same dot convention, the
    leading segment read as a kind). *)
Definition ParseGroupKind (gk : string) : GroupKind :=
  match CutDot gk with
  | Some (kind, group) => mkGK group kind
  | None => mkGK "" gk
  end.

(** [strings.SplitN(arg, ".", 3)] on a string holding at least two dots:
    the first two segments and the unsplit remainder. *)
Definition SplitN3 (arg : string) : option (string * string * string) :=
  match CutDot arg with
  | Some (s0, rest) =>
      match CutDot rest with
      | Some (s1, s2) => Some (s0, s1, s2)
      | None => None
      end
  | None => None
  end.

(** Modelled from the spec: [schema.ParseResourceArg] (imported
    library).  With two dots or more the token is split in three,
    leftmost segment the resource, then the version, the rest the group,
    and the fully specified triple is present; otherwise it is absent
    (Go's [nil]).  The group/resource reading is always returned. *)
Definition ParseResourceArg (arg : string)
  : option GroupVersionResource * GroupResource :=
  let gvr :=
    if Nat.leb 2 (CountDot arg) then
      match SplitN3 arg with
      | Some (s0, s1, s2) => Some (mkGVR s2 s1 s0)
      | None => None
      end
    else None in
  (gvr, ParseGroupResource arg).

(** Modelled from the spec: [schema.ParseKindArg] (imported library),
    the same dot-segment convention with the leading segment read as a
    kind. *)
Definition ParseKindArg (arg : string)
  : option GroupVersionKind * GroupKind :=
  let gvk :=
    if Nat.leb 2 (CountDot arg) then
      match SplitN3 arg with
      | Some (s0, s1, s2) => Some (mkGVK s2 s1 s0)
      | None => None
      end
    else None in
  (gvk, ParseGroupKind arg).

End schema.

(** ** k8s.io/apimachinery/pkg/api/meta *)

Module meta.
Import schema.

(** [meta.RESTScope] as far as the repository looks at it: its name. *)
Inductive RESTScopeName : Type :=
| RESTScopeNameNamespace
| RESTScopeNameRoot.

(** [meta.RESTMapping]. *)
Record RESTMapping : Type := mkRESTMapping
  { rm_Resource : GroupVersionResource;
    rm_GroupVersionKind : GroupVersionKind;
    rm_Scope : RESTScopeName }.

(** Go's [error] values as they occur here: the two no-match error types
    of package [meta], the values built by [fmt.Errorf] without [%w] (kept
    as the format with its arguments), any other error a REST mapper may
    hand out that wraps nothing (discovery or transport trouble,
    ambiguity, ...), an error that wraps one cause ([Unwrap() error], as
    [fmt.Errorf] with one [%w] builds) and an error that wraps several
    ([Unwrap() []error], as [errors.Join] builds). *)
#[warnings="-register-all"]
Inductive error : Type :=
| NoKindMatchError (gk : GroupKind) (SearchedVersions : list string)
| NoResourceMatchError (PartialResource : GroupVersionResource)
| Errorf (format : string) (args : list string)
| OtherError (cause : string)
| WrapError (message : string) (cause : error)
| JoinError (causes : list error).

(** [meta.IsNoMatchError], on a non-nil error: the error is one of the two
    no-match types, or wraps, at any depth, an error that is. *)
Fixpoint IsNoMatchError (err : error) : bool :=
  match err with
  | NoKindMatchError _ _ | NoResourceMatchError _ => true
  | Errorf _ _ | OtherError _ => false
  | WrapError _ cause => IsNoMatchError cause
  | JoinError causes => existsb IsNoMatchError causes
  end.

(** What [KindFor] returns: [(schema.GroupVersionKind, error)]. *)
Definition KindAnswer : Type := (GroupVersionKind * option error)%type.

(** What [RESTMapping] returns: [( *meta.RESTMapping, error)]; either
    half may be [nil]. *)
Definition MappingAnswer : Type := (option RESTMapping * option error)%type.

(** The part of interface [meta.RESTMapper] that [mappingFor] uses.  An
    implementation may keep state of its own (caches, counters), hence
    the state-passing form.  [RESTMapping] is variadic in the versions. *)
Record RESTMapper (S : Type) : Type := mkRESTMapper
  { mapper_KindFor : S -> GroupVersionResource -> KindAnswer * S;
    mapper_RESTMapping :
      S -> GroupKind -> list string -> MappingAnswer * S }.

Arguments mkRESTMapper {S} _ _.
Arguments mapper_KindFor {S} _ _ _.
Arguments mapper_RESTMapping {S} _ _ _ _.

End meta.

(** ** Programs over the REST mapper *)

Module prog.
Import schema meta.

(** An argument of a [fmt.Printf] call. *)
Inductive fmtArg : Type :=
| ArgString (s : string)
| ArgGVR (gvr : GroupVersionResource)
| ArgGroupResource (gr : GroupResource)
| ArgError (err : error).

(** A resolver run as a tree: return a value, call one of the two
    interface methods and go on with the answer, or write a line to
    standard output. *)
Inductive Prog (A : Type) : Type :=
| Ret (a : A)
| CallKindFor (input : GroupVersionResource) (k : KindAnswer -> Prog A)
| CallRESTMapping (gk : GroupKind) (versions : list string)
    (k : MappingAnswer -> Prog A)
| CallPrintf (format : string) (args : list fmtArg) (k : Prog A).

Arguments Ret {A} _.
Arguments CallKindFor {A} _ _.
Arguments CallRESTMapping {A} _ _ _.
Arguments CallPrintf {A} _ _ _.

Fixpoint pbind {A B : Type} (p : Prog A) (f : A -> Prog B) : Prog B :=
  match p with
  | Ret a => f a
  | CallKindFor input k => CallKindFor input (fun a => pbind (k a) f)
  | CallRESTMapping gk versions k =>
      CallRESTMapping gk versions (fun a => pbind (k a) f)
  | CallPrintf format args k => CallPrintf format args (pbind k f)
  end.

#[export] Instance Monad_Prog : Monad Prog :=
  {| ret := @Ret; bind := @pbind |}.

Definition kindFor (input : GroupVersionResource) : Prog KindAnswer :=
  CallKindFor input Ret.

Definition restMapping (gk : GroupKind) (versions : list string)
  : Prog MappingAnswer :=
  CallRESTMapping gk versions Ret.

Definition printf (format : string) (args : list fmtArg) : Prog unit :=
  CallPrintf format args (Ret tt).

(** What a run leaves behind, in order. *)
Inductive event : Type :=
| EvKindFor (input : GroupVersionResource) (answer : KindAnswer)
| EvRESTMapping (gk : GroupKind) (versions : list string)
    (answer : MappingAnswer)
| EvPrintf (format : string) (args : list fmtArg).

Definition isQuery (e : event) : bool :=
  match e with
  | EvKindFor _ _ | EvRESTMapping _ _ _ => true
  | EvPrintf _ _ => false
  end.

(** The queries a run sent to the REST mapper. *)
Definition queries (tr : list event) : list event := filter isQuery tr.

(** [run m p s]: play [p] against REST mapper [m] started in state [s];
    the value returned, the mapper's final state and the trace. *)
Fixpoint run {S A : Type} (m : RESTMapper S) (p : Prog A) (s : S)
  : A * S * list event :=
  match p with
  | Ret a => (a, s, [])
  | CallKindFor input k =>
      let '(answer, s1) := mapper_KindFor m s input in
      let '(a, s2, tr) := run m (k answer) s1 in
      (a, s2, EvKindFor input answer :: tr)
  | CallRESTMapping gk versions k =>
      let '(answer, s1) := mapper_RESTMapping m s gk versions in
      let '(a, s2, tr) := run m (k answer) s1 in
      (a, s2, EvRESTMapping gk versions answer :: tr)
  | CallPrintf format args k =>
      let '(a, s2, tr) := run m k s in
      (a, s2, EvPrintf format args :: tr)
  end.

Definition result {S A : Type} (r : A * S * list event) : A := fst (fst r).
Definition final {S A : Type} (r : A * S * list event) : S := snd (fst r).
Definition trace {S A : Type} (r : A * S * list event) : list event := snd r.

End prog.

(** ** api/services/resourceSvc.go *)

Module services.
Import schema meta prog.

(** [func (r *ResourceService) mappingFor(resourceOrKindArg string,
    restMapper *meta.RESTMapper) ( *meta.RESTMapping, error)].  The
    receiver is never read or written; the mapper is the one the tree
    is run against. *)
Definition mappingFor (resourceOrKindArg : string) : Prog MappingAnswer :=
  if String.eqb resourceOrKindArg "" then
    ret (None, Some (Errorf "resource type cannot be empty" []))
  else
    let '(fullySpecifiedGVR, groupResource) :=
      ParseResourceArg resourceOrKindArg in
    let gvk := zeroGVK in
    gvk <- match fullySpecifiedGVR with
           | Some gvr => '(g, _) <- kindFor gvr ;; ret g
           | None => ret gvk
           end ;;
    gvk <- (if gvk_Empty gvk
            then '(g, _) <- kindFor (gr_WithVersion groupResource "") ;; ret g
            else ret gvk) ;;
    if negb (gvk_Empty gvk) then
      restMapping (gvk_GroupKind gvk) [gvk_Version gvk]
    else
      let '(fullySpecifiedGVK, groupKind) := ParseKindArg resourceOrKindArg in
      let fullySpecifiedGVK :=
        match fullySpecifiedGVK with
        | Some full => full
        | None => gk_WithVersion groupKind ""
        end in
      let terminal : Prog MappingAnswer :=
        '(mapping, err) <- restMapping groupKind [gvk_Version gvk] ;;
        match err with
        | Some e =>
            if IsNoMatchError e then
              ret (None,
                   Some (Errorf "the server doesn't have a resource type %q"
                                [gr_Resource groupResource]))
            else ret (None, Some e)
        | None => ret (mapping, None)
        end in
      if negb (gvk_Empty fullySpecifiedGVK) then
        '(mapping, err) <- restMapping (gvk_GroupKind fullySpecifiedGVK)
                                       [gvk_Version fullySpecifiedGVK] ;;
        match err with
        | None => ret (mapping, None)
        | Some _ => terminal
        end
      else terminal.

End services.

(** ** restmapper/restmapper.go *)

Module restmapper.
Import schema meta prog.

(** [func mappingFor(resourceOrKindArg string, restMapper
    *meta.RESTMapper) ( *meta.RESTMapping, error)] of the example
    program.  Format strings are kept as the source spells them. *)
Definition mappingFor (resourceOrKindArg : string) : Prog MappingAnswer :=
  let '(fullySpecifiedGVR, groupResource) :=
    ParseResourceArg resourceOrKindArg in
  let gvk := zeroGVK in
  gvk <- match fullySpecifiedGVR with
         | Some gvr =>
             '(g, err) <- kindFor gvr ;;
             match err with
             | Some e =>
                 printf "Warning: Could not get kind for GVR %s: %v\n"
                        [ArgGVR gvr; ArgError e]
             | None => ret tt
             end ;;
             ret g
         | None => ret gvk
         end ;;
  gvk <- (if gvk_Empty gvk then
            '(g, err) <- kindFor (gr_WithVersion groupResource "") ;;
            match err with
            | Some e =>
                printf "Warning: Could not get kind for group resource %s: %v\n"
                       [ArgGroupResource groupResource; ArgError e]
            | None => ret tt
            end ;;
            ret g
          else ret gvk) ;;
  if negb (gvk_Empty gvk) then
    restMapping (gvk_GroupKind gvk) [gvk_Version gvk]
  else
    printf "Trying direct mapping for group: %s, resource: %s\n"
           [ArgString (gr_Group groupResource);
            ArgString (gr_Resource groupResource)] ;;
    restMapping (mkGK (gr_Group groupResource) (gr_Resource groupResource))
                [""].

End restmapper.

(** ** The chain in pieces, and properties of REST mappers *)

Module chain.
Import schema meta prog.

(** Lines 125-133 of [resourceSvc.go] on their own: the resource-shaped
    parse and the two [KindFor] lookups, returning the variable [gvk] as
    they leave it. *)
Definition kindSteps (resourceOrKindArg : string) : Prog GroupVersionKind :=
  let '(fullySpecifiedGVR, groupResource) :=
    ParseResourceArg resourceOrKindArg in
  let gvk := zeroGVK in
  gvk <- match fullySpecifiedGVR with
         | Some gvr => '(g, _) <- kindFor gvr ;; ret g
         | None => ret gvk
         end ;;
  if gvk_Empty gvk
  then '(g, _) <- kindFor (gr_WithVersion groupResource "") ;; ret g
  else ret gvk.

(** The error of line 122. *)
Definition emptyTokenError : error :=
  Errorf "resource type cannot be empty" [].

(** The error of line 153. *)
Definition notFoundError (resource : string) : error :=
  Errorf "the server doesn't have a resource type %q" [resource].

(** Lines 151-158: what the terminal step returns for an answer of its
    [RESTMapping] call. *)
Definition terminalResult (groupResource : GroupResource)
  (answer : MappingAnswer) : MappingAnswer :=
  match snd answer with
  | Some e =>
      if IsNoMatchError e
      then (None, Some (notFoundError (gr_Resource groupResource)))
      else (None, Some e)
  | None => (fst answer, None)
  end.

(** What the mapper answers in state [s]: the GVK of [KindFor], and the
    mapping and error of [RESTMapping]. *)
Definition kindAt {S : Type} (m : RESTMapper S) (s : S)
  (q : GroupVersionResource) : GroupVersionKind :=
  fst (fst (mapper_KindFor m s q)).

Definition mappingAt {S : Type} (m : RESTMapper S) (s : S)
  (gk : GroupKind) (versions : list string) : MappingAnswer :=
  fst (mapper_RESTMapping m s gk versions).

(** Lines 121-158 of [resourceSvc.go] read as a function of the token and
    of the two lookups of an index that stays as it is: each call is
    replaced by the value the index gives, the GVK alone for [KindFor]
    (its error goes to the blank identifier). *)
Definition resolution (KindFor : GroupVersionResource -> GroupVersionKind)
  (RESTMapping : GroupKind -> list string -> MappingAnswer)
  (resourceOrKindArg : string) : MappingAnswer :=
  if String.eqb resourceOrKindArg "" then (None, Some emptyTokenError)
  else
    let '(fullySpecifiedGVR, groupResource) :=
      ParseResourceArg resourceOrKindArg in
    let gvk :=
      match fullySpecifiedGVR with
      | Some gvr => KindFor gvr
      | None => zeroGVK
      end in
    let gvk :=
      if gvk_Empty gvk then KindFor (gr_WithVersion groupResource "")
      else gvk in
    if negb (gvk_Empty gvk) then
      RESTMapping (gvk_GroupKind gvk) [gvk_Version gvk]
    else
      let '(fullySpecifiedGVK, groupKind) := ParseKindArg resourceOrKindArg in
      let fullySpecifiedGVK :=
        match fullySpecifiedGVK with
        | Some full => full
        | None => gk_WithVersion groupKind ""
        end in
      let terminal :=
        terminalResult groupResource
                       (RESTMapping groupKind [gvk_Version gvk]) in
      if negb (gvk_Empty fullySpecifiedGVK) then
        match RESTMapping (gvk_GroupKind fullySpecifiedGVK)
                          [gvk_Version fullySpecifiedGVK] with
        | (mapping, None) => (mapping, None)
        | (_, Some _) => terminal
        end
      else terminal.

(** The one step the example does not have takes effect: the [KindFor]
    steps leave [gvk] empty, the kind-shaped parse yields a fully
    specified, non-empty GVK (the token has two dots or more), and the
    [RESTMapping] lookup of lines 144-147 on it, made in the state the
    [KindFor] steps leave, answers without error. *)
Definition directHit {S : Type} (m : RESTMapper S) (s : S)
  (resourceOrKindArg : string) : bool :=
  let '(gvk, s1, _) := run m (kindSteps resourceOrKindArg) s in
  gvk_Empty gvk
  && match fst (ParseKindArg resourceOrKindArg) with
     | Some full =>
         negb (gvk_Empty full)
         && match snd (fst (mapper_RESTMapping m s1 (gvk_GroupKind full)
                                               [gvk_Version full])) with
            | None => true
            | Some _ => false
            end
     | None => false
     end.

(** A REST mapper that no query changes: the unchanged index. *)
Definition ReadOnly {S : Type} (m : RESTMapper S) : Prop :=
  (forall s q, snd (mapper_KindFor m s q) = s)
  /\ (forall s gk versions, snd (mapper_RESTMapping m s gk versions) = s).

(** A REST mapper whose [RESTMapping] lookups leave its state as it was
    whenever they answer with an error.  [KindFor], and the lookups that
    succeed, may change the state as they like. *)
Definition QuietOnMiss {S : Type} (m : RESTMapper S) : Prop :=
  forall s gk versions,
    snd (fst (mapper_RESTMapping m s gk versions)) <> None ->
    snd (mapper_RESTMapping m s gk versions) = s.

(** Mapping [r] is registered with the mapper in state [s]: [KindFor] on
    its resource triple answers with its GVK, a non-empty GVK in the
    version of the triple, and [RESTMapping] on that GVK, asked next,
    answers with [r]. *)
Definition Registered {S : Type} (m : RESTMapper S) (s : S)
  (r : RESTMapping) : Prop :=
  gvk_Empty (rm_GroupVersionKind r) = false
  /\ gvk_Version (rm_GroupVersionKind r) = gvr_Version (rm_Resource r)
  /\ exists e s1 s2,
       mapper_KindFor m s (rm_Resource r)
       = ((rm_GroupVersionKind r, e), s1)
       /\ mapper_RESTMapping m s1 (gvk_GroupKind (rm_GroupVersionKind r))
                             [gvk_Version (rm_GroupVersionKind r)]
          = ((Some r, None), s2).

(** A mapping is there and names its resource. *)
Definition Populated (mapping : option RESTMapping) : Prop :=
  match mapping with
  | Some r => gvr_Resource (rm_Resource r) <> ""
  | None => False
  end.

(** A REST mapper whose [RESTMapping], when it reports no error, hands
    out a populated mapping. *)
Definition AnswersPopulated {S : Type} (m : RESTMapper S) : Prop :=
  forall s gk versions,
    snd (fst (mapper_RESTMapping m s gk versions)) = None ->
    Populated (fst (fst (mapper_RESTMapping m s gk versions))).

(** Success together with the same mapping, or failure on both sides. *)
Definition sameOutcome (a b : MappingAnswer) : Prop :=
  match snd a, snd b with
  | None, None => fst a = fst b
  | Some _, Some _ => True
  | _, _ => False
  end.

(** The last entry of a trace, if any. *)
Definition lastEvent (tr : list event) : option event :=
  match rev tr with
  | e :: _ => Some e
  | [] => None
  end.

(** How many [RESTMapping] calls a trace holds. *)
Definition mappingCalls (tr : list event) : nat :=
  length (filter (fun e => match e with
                           | EvRESTMapping _ _ _ => true
                           | _ => false
                           end) tr).

End chain.

(** ** REST mappers to run the resolvers against *)

Module fixtures.
Import schema meta prog.

Definition gvrMatches (q r : GroupVersionResource) : bool :=
  String.eqb (gvr_Resource q) (gvr_Resource r)
  && String.eqb (gvr_Group q) (gvr_Group r)
  && (String.eqb (gvr_Version q) "" || String.eqb (gvr_Version q) (gvr_Version r)).

Definition kindMatches (gk : GroupKind) (versions : list string)
  (k : GroupVersionKind) : bool :=
  String.eqb (gk_Kind gk) (gvk_Kind k)
  && String.eqb (gk_Group gk) (gvk_Group k)
  && existsb (fun v => String.eqb v "" || String.eqb v (gvk_Version k)) versions.

(** A stateless REST mapper over a fixed table of mappings: the first
    row that matches answers, and a miss is reported with the no-match
    error of the method. *)
Definition tableMapper (rows : list RESTMapping) : RESTMapper unit :=
  mkRESTMapper
    (fun s q =>
       match find (fun r => gvrMatches q (rm_Resource r)) rows with
       | Some r => ((rm_GroupVersionKind r, None), s)
       | None => ((zeroGVK, Some (NoResourceMatchError q)), s)
       end)
    (fun s gk versions =>
       match find (fun r => kindMatches gk versions (rm_GroupVersionKind r)) rows with
       | Some r => ((Some r, None), s)
       | None => ((None, Some (NoKindMatchError gk versions)), s)
       end).

(** A REST mapper whose discovery is down for [KindFor] only. *)
Definition kindlessMapper (rows : list RESTMapping) : RESTMapper unit :=
  mkRESTMapper
    (fun s q => ((zeroGVK, Some (OtherError "connection refused")), s))
    (mapper_RESTMapping (tableMapper rows)).

(** A REST mapper with a state of its own: it counts the [RESTMapping]
    calls it has served, misses the first one and answers the later ones
    from the table. *)
Definition warmingMapper (rows : list RESTMapping) : RESTMapper nat :=
  mkRESTMapper
    (fun n q => (fst (mapper_KindFor (tableMapper rows) tt q), n))
    (fun n gk versions =>
       match n with
       | O => ((None, Some (NoKindMatchError gk versions)), S n)
       | S _ => (fst (mapper_RESTMapping (tableMapper rows) tt gk versions), S n)
       end).

(** A REST mapper whose two methods disagree: [KindFor] knows the
    table, [RESTMapping] finds nothing. *)
Definition staleMapper (rows : list RESTMapping) : RESTMapper unit :=
  mkRESTMapper
    (mapper_KindFor (tableMapper rows))
    (mapper_RESTMapping (tableMapper [])).

(** A REST mapper that reports every miss of [RESTMapping] wrapped in an
    error of its own. *)
Definition wrappingMapper (rows : list RESTMapping) : RESTMapper unit :=
  mkRESTMapper
    (mapper_KindFor (tableMapper rows))
    (fun s gk versions =>
       match mapper_RESTMapping (tableMapper rows) s gk versions with
       | ((mapping, Some e), s1) =>
           ((mapping, Some (WrapError "discovery" e)), s1)
       | answer => answer
       end).

Definition pods : RESTMapping :=
  mkRESTMapping (mkGVR "" "v1" "pods") (mkGVK "" "v1" "Pod")
                RESTScopeNameNamespace.

Definition deployments : RESTMapping :=
  mkRESTMapping (mkGVR "apps" "v1" "deployments")
                (mkGVK "apps" "v1" "Deployment") RESTScopeNameNamespace.

Definition nodes : RESTMapping :=
  mkRESTMapping (mkGVR "" "v1" "nodes") (mkGVK "" "v1" "Node")
                RESTScopeNameRoot.

Definition cluster : list RESTMapping := [pods; deployments; nodes].

(** A row that registers kind [Pod] without a resource name. *)
Definition unnamed : RESTMapping :=
  mkRESTMapping (mkGVR "" "v1" "") (mkGVK "" "v1" "Pod")
                RESTScopeNameNamespace.

End fixtures.

(** * The service around the chain *)

From Stdlib Require Import ZArith.

(** ** Errors that wrap errors *)

Module errs.
Import schema meta.

(** Go's [error] values at the level of the service: an error as it comes
    (from the mapper, from the cluster, or built by [fmt.Errorf] or
    [errors.New] without a cause), [fmt.Errorf] with a closing [%w], which
    keeps the cause, or [errors.Wrap] of [github.com/pkg/errors], which
    keeps it too. *)
Inductive Error : Type :=
| Leaf (e : error)
| Wrapf (format : string) (args : list string) (cause : Error)
| Wrap (message : string) (cause : Error).

(** [errors.Unwrap], repeated until nothing is left to unwrap. *)
Fixpoint rootCause (e : Error) : error :=
  match e with
  | Leaf e0 => e0
  | Wrapf _ _ cause => rootCause cause
  | Wrap _ cause => rootCause cause
  end.

(** How many times an error has been wrapped. *)
Fixpoint wrapDepth (e : Error) : nat :=
  match e with
  | Leaf _ => 0
  | Wrapf _ _ cause => S (wrapDepth cause)
  | Wrap _ cause => S (wrapDepth cause)
  end.

End errs.

(** ** Programs over the mapper, the cluster and the HTTP response *)

Module svc.
Import schema meta prog errs.

(** What [client.Resource(gvr)] and [client.Resource(gvr).Namespace(ns)]
    denote: the collection a request is addressed to. *)
Inductive ResourceInterface : Type :=
| Resource (gvr : GroupVersionResource)
| Namespace (gvr : GroupVersionResource) (ns : string).

(** The text of a response: a literal of the controller, or [err.Error()]
    of an error. *)
Inductive Message : Type :=
| Text (s : string)
| ErrorText (e : Error).

Section Programs.

(** The library types the service only passes along:
    [unstructured.Unstructured], [informers.GenericInformer] and
    [[]runtime.Object]. *)
Context {Unstructured Informer ObjectList : Type}.

(** [gin.H] as the controllers build it: one key, ["error"] or ["data"]. *)
Inductive Body : Type :=
| ErrorBody (msg : Message)
| DataText (s : string)
| DataObjects (list : option ObjectList)
| DataGVR (gvr : GroupVersionResource).

(** A run of a service function or of a handler as a tree: return, die of
    a nil dereference, call [r.mappingFor], call into the cluster
    libraries, or write the response with [c.JSON].  The library calls:
    [CallDecode] is [scheme.Codecs.UniversalDeserializer().Decode([]byte(yaml),
    nil, obj)], answered with [obj] as the call leaves it and the error;
    [CallForResource] is [r.fact.ForResource(gvr)]; [CallList] is
    [informer.Lister().ByNamespace(ns).List(labels.Everything())];
    [CallDelete] is [ri.Delete(ctx, name, metav1.DeleteOptions{})];
    [CallCreate] is [ri.Create(ctx, obj, metav1.CreateOptions{})]. *)
Inductive Svc (A : Type) : Type :=
| Done (a : A)
| Panic
| CallMappingFor (resourceOrKindArg : string) (k : MappingAnswer -> Svc A)
| CallDecode (yaml : string) (k : Unstructured * option error -> Svc A)
| CallForResource (gvr : GroupVersionResource)
    (k : option Informer * option error -> Svc A)
| CallList (informer : Informer) (ns : string)
    (k : option ObjectList * option error -> Svc A)
| CallDelete (ri : ResourceInterface) (name : string)
    (k : option error -> Svc A)
| CallCreate (ri : ResourceInterface) (obj : Unstructured)
    (k : option Unstructured * option error -> Svc A)
| CallJSON (code : nat) (body : Body) (k : Svc A).

Arguments Done {A} _.
Arguments Panic {A}.
Arguments CallMappingFor {A} _ _.
Arguments CallDecode {A} _ _.
Arguments CallForResource {A} _ _.
Arguments CallList {A} _ _ _.
Arguments CallDelete {A} _ _ _.
Arguments CallCreate {A} _ _ _.
Arguments CallJSON {A} _ _ _.

Fixpoint sbind {A B : Type} (p : Svc A) (f : A -> Svc B) : Svc B :=
  match p with
  | Done a => f a
  | Panic => Panic
  | CallMappingFor tok k => CallMappingFor tok (fun a => sbind (k a) f)
  | CallDecode yaml k => CallDecode yaml (fun a => sbind (k a) f)
  | CallForResource gvr k => CallForResource gvr (fun a => sbind (k a) f)
  | CallList informer ns k => CallList informer ns (fun a => sbind (k a) f)
  | CallDelete ri name k => CallDelete ri name (fun a => sbind (k a) f)
  | CallCreate ri obj k => CallCreate ri obj (fun a => sbind (k a) f)
  | CallJSON code body k => CallJSON code body (sbind k f)
  end.

Definition callMappingFor (resourceOrKindArg : string) : Svc MappingAnswer :=
  CallMappingFor resourceOrKindArg Done.

Definition callDecode (yaml : string) : Svc (Unstructured * option error) :=
  CallDecode yaml Done.

Definition callForResource (gvr : GroupVersionResource)
  : Svc (option Informer * option error) :=
  CallForResource gvr Done.

Definition callList (informer : Informer) (ns : string)
  : Svc (option ObjectList * option error) :=
  CallList informer ns Done.

Definition callDelete (ri : ResourceInterface) (name : string)
  : Svc (option error) :=
  CallDelete ri name Done.

Definition callCreate (ri : ResourceInterface) (obj : Unstructured)
  : Svc (option Unstructured * option error) :=
  CallCreate ri obj Done.

Definition callJSON (code : nat) (body : Body) : Svc unit :=
  CallJSON code body (Done tt).

(** The cluster side: the deserializer, the informer factory and the
    dynamic client, each call with the cluster state it finds and leaves. *)
Record Cluster (C : Type) : Type := mkCluster
  { cluster_Decode : string -> Unstructured * option error;
    cluster_ForResource :
      C -> GroupVersionResource -> (option Informer * option error) * C;
    cluster_List :
      C -> Informer -> string -> (option ObjectList * option error) * C;
    cluster_Delete : C -> ResourceInterface -> string -> option error * C;
    cluster_Create :
      C -> ResourceInterface -> Unstructured ->
      (option Unstructured * option error) * C }.

Arguments mkCluster {C} _ _ _ _ _.
Arguments cluster_Decode {C} _ _.
Arguments cluster_ForResource {C} _ _ _.
Arguments cluster_List {C} _ _ _ _.
Arguments cluster_Delete {C} _ _ _ _.
Arguments cluster_Create {C} _ _ _ _.

(** What a run leaves behind: the exchanges of [mappingFor] with the
    mapper, the calls into the cluster, the responses written. *)
Inductive Event : Type :=
| EvMapper (e : event)
| EvDecode (yaml : string) (answer : Unstructured * option error)
| EvForResource (gvr : GroupVersionResource)
    (answer : option Informer * option error)
| EvList (informer : Informer) (ns : string)
    (answer : option ObjectList * option error)
| EvDelete (ri : ResourceInterface) (name : string) (answer : option error)
| EvCreate (ri : ResourceInterface) (obj : Unstructured)
    (answer : option Unstructured * option error)
| EvJSON (code : nat) (body : Body).

(** How a run ends. *)
Inductive Outcome (A : Type) : Type :=
| Returned (a : A)
| Panicked.

Arguments Returned {A} _.
Arguments Panicked {A}.

(** [exec m c p s w]: play [p] with the mapper [m] in state [s] and the
    cluster [c] in state [w]. *)
Fixpoint exec {S C A : Type} (m : RESTMapper S) (c : Cluster C)
  (p : Svc A) (s : S) (w : C) : Outcome A * S * C * list Event :=
  match p with
  | Done a => (Returned a, s, w, [])
  | Panic => (Panicked, s, w, [])
  | CallMappingFor tok k =>
      let '(answer, s1, tr) := run m (services.mappingFor tok) s in
      let '(o, s2, w2, rest) := exec m c (k answer) s1 w in
      (o, s2, w2, (List.map EvMapper tr ++ rest)%list)
  | CallDecode yaml k =>
      let answer := cluster_Decode c yaml in
      let '(o, s2, w2, rest) := exec m c (k answer) s w in
      (o, s2, w2, EvDecode yaml answer :: rest)
  | CallForResource gvr k =>
      let '(answer, w1) := cluster_ForResource c w gvr in
      let '(o, s2, w2, rest) := exec m c (k answer) s w1 in
      (o, s2, w2, EvForResource gvr answer :: rest)
  | CallList informer ns k =>
      let '(answer, w1) := cluster_List c w informer ns in
      let '(o, s2, w2, rest) := exec m c (k answer) s w1 in
      (o, s2, w2, EvList informer ns answer :: rest)
  | CallDelete ri name k =>
      let '(answer, w1) := cluster_Delete c w ri name in
      let '(o, s2, w2, rest) := exec m c (k answer) s w1 in
      (o, s2, w2, EvDelete ri name answer :: rest)
  | CallCreate ri obj k =>
      let '(answer, w1) := cluster_Create c w ri obj in
      let '(o, s2, w2, rest) := exec m c (k answer) s w1 in
      (o, s2, w2, EvCreate ri obj answer :: rest)
  | CallJSON code body k =>
      let '(o, s2, w2, rest) := exec m c k s w in
      (o, s2, w2, EvJSON code body :: rest)
  end.

Definition outcome {S C A : Type} (r : Outcome A * S * C * list Event)
  : Outcome A := fst (fst (fst r)).

Definition events {S C A : Type} (r : Outcome A * S * C * list Event)
  : list Event := snd r.

(** Calls that reach the cluster through the dynamic client or the
    informer factory. *)
Definition isClusterCall (e : Event) : bool :=
  match e with
  | EvForResource _ _ | EvList _ _ _ | EvDelete _ _ _ | EvCreate _ _ _ => true
  | _ => false
  end.

(** Calls that change the cluster. *)
Definition isWrite (e : Event) : bool :=
  match e with
  | EvDelete _ _ _ | EvCreate _ _ _ => true
  | _ => false
  end.

Definition isMapperQuery (e : Event) : bool :=
  match e with
  | EvMapper q => isQuery q
  | _ => false
  end.

Definition isResponse (e : Event) : bool :=
  match e with
  | EvJSON _ _ => true
  | _ => false
  end.

(** The responses written during a run, in order. *)
Definition responses (tr : list Event) : list (nat * Body) :=
  flat_map (fun e => match e with
                     | EvJSON code body => [(code, body)]
                     | _ => []
                     end) tr.

End Programs.

Arguments Body : clear implicits.
Arguments Svc : clear implicits.
Arguments Cluster : clear implicits.
Arguments Event : clear implicits.

Arguments ErrorBody {ObjectList} _.
Arguments DataText {ObjectList} _.
Arguments DataObjects {ObjectList} _.
Arguments DataGVR {ObjectList} _.
Arguments Done {Unstructured Informer ObjectList A} _.
Arguments Panic {Unstructured Informer ObjectList A}.
Arguments CallMappingFor {Unstructured Informer ObjectList A} _ _.
Arguments CallDecode {Unstructured Informer ObjectList A} _ _.
Arguments CallForResource {Unstructured Informer ObjectList A} _ _.
Arguments CallList {Unstructured Informer ObjectList A} _ _ _.
Arguments CallDelete {Unstructured Informer ObjectList A} _ _ _.
Arguments CallCreate {Unstructured Informer ObjectList A} _ _ _.
Arguments CallJSON {Unstructured Informer ObjectList A} _ _ _.
Arguments mkCluster {Unstructured Informer ObjectList C} _ _ _ _ _.
Arguments cluster_Decode {Unstructured Informer ObjectList C} _ _.
Arguments cluster_ForResource {Unstructured Informer ObjectList C} _ _ _.
Arguments cluster_List {Unstructured Informer ObjectList C} _ _ _ _.
Arguments cluster_Delete {Unstructured Informer ObjectList C} _ _ _ _.
Arguments cluster_Create {Unstructured Informer ObjectList C} _ _ _ _.
Arguments EvMapper {Unstructured Informer ObjectList} _.
Arguments EvDecode {Unstructured Informer ObjectList} _ _.
Arguments EvForResource {Unstructured Informer ObjectList} _ _.
Arguments EvList {Unstructured Informer ObjectList} _ _ _.
Arguments EvDelete {Unstructured Informer ObjectList} _ _ _.
Arguments EvCreate {Unstructured Informer ObjectList} _ _ _.
Arguments EvJSON {Unstructured Informer ObjectList} _ _.
Arguments Returned {A} _.
Arguments Panicked {A}.

Declare Scope svc_scope.

Notation "x <- c1 ;; c2" := (sbind c1 (fun x => c2))
  (at level 61, c1 at next level, right associativity) : svc_scope.

Notation "' pat <- c1 ;; c2" :=
  (sbind c1 (fun x => match x with pat => c2 end))
  (at level 61, pat pattern, c1 at next level, right associativity)
  : svc_scope.

End svc.

(** ** api/services/resourceSvc.go: the service functions *)

Module ResourceService.
Import schema meta prog errs svc.
Local Open Scope svc_scope.

Section Service.

Context {Unstructured Informer ObjectList : Type}.

(** [func (u *Unstructured) GetNamespace() string] of the imported
    library. *)
Variable GetNamespace : Unstructured -> string.

(** [func (r *ResourceService) getResourceInterface(resourceOrKindArg
    string, ns string, client dynamic.Interface, restMapper
    *meta.RESTMapper) (dynamic.ResourceInterface, error)]. *)
Definition getResourceInterface (resourceOrKindArg ns : string)
  : Svc Unstructured Informer ObjectList
        (option ResourceInterface * option Error) :=
  '(restMapping, err) <- callMappingFor resourceOrKindArg ;;
  match err with
  | Some e =>
      Done (None,
           Some (Wrapf "failed to get RESTMapping for %s: %w"
                       [resourceOrKindArg] (Leaf e)))
  | None =>
      match restMapping with
      | None => Panic
      | Some mapping =>
          let ri :=
            match rm_Scope mapping with
            | RESTScopeNameNamespace => Namespace (rm_Resource mapping) ns
            | RESTScopeNameRoot => Resource (rm_Resource mapping)
            end in
          Done (Some ri, None)
      end
  end.

(** [func (r *ResourceService) ListResource(ctx context.Context,
    resourceOrKindArg string, ns string) ([]runtime.Object, error)]. *)
Definition ListResource (resourceOrKindArg ns : string)
  : Svc Unstructured Informer ObjectList
        (option ObjectList * option Error) :=
  '(restMapping, err) <- callMappingFor resourceOrKindArg ;;
  match err with
  | Some e => Done (None, Some (Leaf e))
  | None =>
      match restMapping with
      | None => Panic
      | Some mapping =>
          '(informer, err) <- callForResource (rm_Resource mapping) ;;
          match err with
          | Some e =>
              Done (None,
                   Some (Wrapf "failed to get informer for resource %s: %w"
                               [resourceOrKindArg] (Leaf e)))
          | None =>
              match informer with
              | None => Panic
              | Some informer =>
                  '(list, err) <- callList informer ns ;;
                  match err with
                  | Some e =>
                      Done (None,
                           Some (Wrapf "failed to list %s resources: %w"
                                       [resourceOrKindArg] (Leaf e)))
                  | None => Done (list, None)
                  end
              end
          end
      end
  end.

(** [func (r *ResourceService) DeleteResource(ctx context.Context,
    resourceOrKindArg string, ns string, name string) error]. *)
Definition DeleteResource (resourceOrKindArg ns name : string)
  : Svc Unstructured Informer ObjectList (option Error) :=
  if String.eqb name "" then
    Done (Some (Leaf (Errorf "resource name cannot be empty" [])))
  else
    '(ri, err) <- getResourceInterface resourceOrKindArg ns ;;
    match err with
    | Some e => Done (Some e)
    | None =>
        match ri with
        | None => Panic
        | Some ri =>
            err <- callDelete ri name ;;
            match err with
            | Some e =>
                Done (Some (Wrapf "failed to delete %s/%s: %w"
                                 [resourceOrKindArg; name] (Leaf e)))
            | None => Done None
            end
        end
    end.

(** [func (r *ResourceService) CreateResource(ctx context.Context,
    resourceOrKindArg string, yaml string) error]. *)
Definition CreateResource (resourceOrKindArg yaml : string)
  : Svc Unstructured Informer ObjectList (option Error) :=
  if String.eqb yaml "" then
    Done (Some (Leaf (Errorf "YAML content cannot be empty" [])))
  else
    '(obj, err) <- callDecode yaml ;;
    match err with
    | Some e => Done (Some (Wrapf "failed to decode YAML: %w" [] (Leaf e)))
    | None =>
        '(ri, err) <- getResourceInterface resourceOrKindArg (GetNamespace obj) ;;
        match err with
        | Some e => Done (Some e)
        | None =>
            match ri with
            | None => Panic
            | Some ri =>
                '(_, err) <- callCreate ri obj ;;
                match err with
                | Some e =>
                    Done (Some (Wrapf "failed to create %s: %w"
                                     [resourceOrKindArg] (Leaf e)))
                | None => Done None
                end
            end
        end
    end.

(** [func (r *ResourceService) GetGVR(resourceOrKindArg string)
    ( *schema.GroupVersionResource, error)]. *)
Definition GetGVR (resourceOrKindArg : string)
  : Svc Unstructured Informer ObjectList
        (option GroupVersionResource * option Error) :=
  if String.eqb resourceOrKindArg "" then
    Done (None, Some (Leaf (Errorf "resource type cannot be empty" [])))
  else
    '(restMapping, err) <- callMappingFor resourceOrKindArg ;;
    match err with
    | Some e => Done (None, Some (Leaf e))
    | None =>
        match restMapping with
        | None => Panic
        | Some mapping => Done (Some (rm_Resource mapping), None)
        end
    end.

End Service.

End ResourceService.

(** ** api/controllers: the handlers of the resource routes *)

Module controllers.
Import schema meta prog errs svc.
Local Open Scope svc_scope.

(** [net/http] status codes. *)
Definition StatusOK : nat := 200.
Definition StatusCreated : nat := 201.
Definition StatusBadRequest : nat := 400.
Definition StatusInternalServerError : nat := 500.

(** What a handler reads from its [*gin.Context]: [c.Param], [c.Query],
    [c.DefaultQuery], and the outcome of [c.ShouldBindJSON(&param)] (the
    [Yaml] field afterwards and the error). *)
Record Request : Type := mkRequest
  { Param : string -> string;
    Query : string -> string;
    DefaultQuery : string -> string -> string;
    ShouldBindJSON : string * option error }.

Section Handlers.

Context {Unstructured Informer ObjectList : Type}.
Variable GetNamespace : Unstructured -> string.

(** [func (r *ResourceCtl) List() func(c *gin.Context)]. *)
Definition List (c : Request) : Svc Unstructured Informer ObjectList unit :=
  let resource := Param c "resource" in
  if String.eqb resource "" then
    callJSON StatusBadRequest (ErrorBody (Text "resource parameter is required"))
  else
    let ns := DefaultQuery c "ns" "default" in
    '(resourceList, err) <- ResourceService.ListResource resource ns ;;
    match err with
    | Some e => callJSON StatusInternalServerError (ErrorBody (ErrorText e))
    | None => callJSON StatusOK (DataObjects resourceList)
    end.

(** [func (r *ResourceCtl) Delete() func(c *gin.Context)]. *)
Definition Delete (c : Request) : Svc Unstructured Informer ObjectList unit :=
  let resource := Param c "resource" in
  if String.eqb resource "" then
    callJSON StatusBadRequest (ErrorBody (Text "resource parameter is required"))
  else
    let ns := DefaultQuery c "ns" "default" in
    let name := Query c "name" in
    if String.eqb name "" then
      callJSON StatusBadRequest (ErrorBody (Text "name parameter is required"))
    else
      err <- ResourceService.DeleteResource resource ns name ;;
      match err with
      | Some e => callJSON StatusInternalServerError (ErrorBody (ErrorText e))
      | None => callJSON StatusOK (DataText "resource deleted successfully")
      end.

(** [func (r *ResourceCtl) Create() func(c *gin.Context)]. *)
Definition Create (c : Request) : Svc Unstructured Informer ObjectList unit :=
  let resource := Param c "resource" in
  if String.eqb resource "" then
    callJSON StatusBadRequest (ErrorBody (Text "resource parameter is required"))
  else
    let '(yaml, err) := ShouldBindJSON c in
    match err with
    | Some e => callJSON StatusBadRequest (ErrorBody (ErrorText (Leaf e)))
    | None =>
        err <- ResourceService.CreateResource GetNamespace resource yaml ;;
        match err with
        | Some e => callJSON StatusInternalServerError (ErrorBody (ErrorText e))
        | None => callJSON StatusCreated (DataText "resource created successfully")
        end
    end.

(** [func (r *ResourceCtl) GetGVR() func(c *gin.Context)]. *)
Definition GetGVR (c : Request) : Svc Unstructured Informer ObjectList unit :=
  let resource := Query c "resource" in
  if String.eqb resource "" then
    callJSON StatusBadRequest (ErrorBody (Text "resource parameter is required"))
  else
    '(gvr, err) <- ResourceService.GetGVR resource ;;
    match err with
    | Some e => callJSON StatusBadRequest (ErrorBody (ErrorText e))
    | None =>
        match gvr with
        | None => Panic
        | Some gvr => callJSON StatusOK (DataGVR gvr)
        end
    end.

End Handlers.

End controllers.

(** ** Reading traces, and further properties of mappers and clusters *)

Module traces.
Import schema meta prog errs svc.

Definition isKindFor (e : event) : bool :=
  match e with
  | EvKindFor _ _ => true
  | _ => false
  end.

Definition isRESTMapping (e : event) : bool :=
  match e with
  | EvRESTMapping _ _ _ => true
  | _ => false
  end.

(** A [KindFor] call that came back with an error. *)
Definition isFailedKindFor (e : event) : bool :=
  match e with
  | EvKindFor _ (_, Some _) => true
  | _ => false
  end.

(** One of the two "Warning: Could not get kind ..." lines of the
    example. *)
Definition isWarning (e : event) : bool :=
  match e with
  | EvPrintf format _ =>
      String.eqb format "Warning: Could not get kind for GVR %s: %v\n"
      || String.eqb format
           "Warning: Could not get kind for group resource %s: %v\n"
  | _ => false
  end.

(** The mapper [m] with the error of every [KindFor] answer blanked. *)
Definition muteKindErrors {S : Type} (m : RESTMapper S) : RESTMapper S :=
  mkRESTMapper
    (fun s q =>
       let '((g, _), s1) := mapper_KindFor m s q in ((g, None), s1))
    (mapper_RESTMapping m).

(** A mapper whose [RESTMapping] never answers [(nil, nil)]. *)
Definition AnswersPresent {S : Type} (m : RESTMapper S) : Prop :=
  forall s gk versions s1,
    mapper_RESTMapping m s gk versions <> ((None, None), s1).

(** A cluster whose informer factory never answers [(nil, nil)]. *)
Definition InformersPresent {Unstructured Informer ObjectList C : Type}
  (c : Cluster Unstructured Informer ObjectList C) : Prop :=
  forall w gvr w1, cluster_ForResource c w gvr <> ((None, None), w1).

(** The collection a mapping is addressed through, as lines 110-114 of
    [resourceSvc.go] choose it. *)
Definition collection (mapping : RESTMapping) (ns : string)
  : ResourceInterface :=
  match rm_Scope mapping with
  | RESTScopeNameNamespace => Namespace (rm_Resource mapping) ns
  | RESTScopeNameRoot => Resource (rm_Resource mapping)
  end.

End traces.

(** ** A cluster to run the service against *)

Module worlds.
Import schema meta prog errs svc.

Definition gvrEqb (a b : GroupVersionResource) : bool :=
  String.eqb (gvr_Group a) (gvr_Group b)
  && String.eqb (gvr_Version a) (gvr_Version b)
  && String.eqb (gvr_Resource a) (gvr_Resource b).

Definition riEqb (a b : ResourceInterface) : bool :=
  match a, b with
  | Resource g, Resource h => gvrEqb g h
  | Namespace g n, Namespace h k => gvrEqb g h && String.eqb n k
  | _, _ => false
  end.

(** Objects are a namespace and a name; the cluster state is the list of
    the objects stored, each under its collection. *)
Definition Object : Type := (string * string)%type.

Definition Store : Type := list (ResourceInterface * string).

Definition stored (ri : ResourceInterface) (name : string)
  (entry : ResourceInterface * string) : bool :=
  riEqb ri (fst entry) && String.eqb name (snd entry).

(** A small cluster: a manifest ["ns/name"] decodes to that object and a
    manifest without a slash does not decode; [Delete] removes a stored
    object and fails on a missing one; [Create] stores the object. *)
Definition storeCluster
  : Cluster Object GroupVersionResource (list string) Store :=
  mkCluster
    (fun yaml =>
       match String.index 0 "/" yaml with
       | Some i =>
           ((String.substring 0 i yaml,
             String.substring (S i) (String.length yaml - S i) yaml), None)
       | None => (("", ""), Some (OtherError "cannot decode"))
       end)
    (fun w gvr => ((Some gvr, None), w))
    (fun w informer ns =>
       ((Some (List.map snd
                 (filter (fun entry => riEqb (Namespace informer ns) (fst entry))
                         w)),
         None), w))
    (fun w ri name =>
       if existsb (stored ri name) w
       then (None, filter (fun entry => negb (stored ri name entry)) w)
       else (Some (OtherError "not found"), w))
    (fun w ri obj => ((Some obj, None), (ri, snd obj) :: w)).

(** A request given by its path parameter, its query and what binding its
    body yields. *)
Definition request (resource : string) (query : list (string * string))
  (yaml : string * option error) : controllers.Request :=
  let get key :=
    match find (fun kv => String.eqb key (fst kv)) query with
    | Some kv => Some (snd kv)
    | None => None
    end in
  controllers.mkRequest
    (fun key => if String.eqb key "resource" then resource else "")
    (fun key => match get key with Some v => v | None => "" end)
    (fun key def => match get key with Some v => v | None => def end)
    yaml.

End worlds.

(** ** What a handler run must look like *)

Module conduct.
Import schema meta prog errs svc.

(** A run that returned wrote exactly one response; a run that died wrote
    none. *)
Definition answeredOnce {U I O S C A : Type}
  (r : Outcome A * S * C * list (Event U I O)) : Prop :=
  match outcome r with
  | Returned _ => length (responses (events r)) = 1
  | Panicked => responses (events r) = []
  end.

Definition isErrorBody {O : Type} (body : Body O) : bool :=
  match body with
  | ErrorBody _ => true
  | _ => false
  end.

End conduct.

(** ** api/services/podLogEventSvc.go: the events of a pod *)

Module PodLogEventService.
Import schema meta errs svc.

(** The two fields of [v1.Event] the service reads. *)
Record Event : Type := mkEvent
  { Type_ : string; Message : string }.

(** [append(s, x)] on a slice of strings that may be nil ([None]). *)
Definition append (s : option (list string)) (x : string)
  : option (list string) :=
  match s with
  | None => Some [x]
  | Some l => Some (l ++ [x])%list
  end.

(** [fmt.Sprintf("involvedObject.name=%s,involvedObject.kind=Pod",
    podname)]. *)
Definition FieldSelector (podname : string) : string :=
  "involvedObject.name=" ++ podname ++ ",involvedObject.kind=Pod".

(** The loop of lines 48-53 over [events.Items]. *)
Definition warnings (items : list Event) : option (list string) :=
  fold_left
    (fun podEvents event =>
       if String.eqb (Type_ event) "Warning"
       then append podEvents (Message event)
       else podEvents)
    items None.

(** [func (p *PodLogEventService) GetEvents(ctx context.Context, ns,
    podname string) ([]string, error)].  [List] stands for
    [p.client.CoreV1().Events(ns).List(ctx, metav1.ListOptions{FieldSelector:
    ...})]: the namespace, the selector, the event list (nil or its items)
    and the error it answers with. *)
Definition GetEvents {W : Type}
  (List : W -> string -> string ->
          (option (list Event) * option error) * W)
  (w : W) (ns podname : string)
  : Outcome (option (list string) * option Error) * W :=
  if String.eqb podname "" then
    (Returned (None, Some (Leaf (Errorf "pod name cannot be empty" []))), w)
  else
    let '((events, err), w1) := List w ns (FieldSelector podname) in
    match err with
    | Some e =>
        (Returned (None, Some (Wrapf "failed to list events: %w" [] (Leaf e))),
         w1)
    | None =>
        match events with
        | None => (Panicked, w1)
        | Some items => (Returned (warnings items, None), w1)
        end
    end.

End PodLogEventService.

(** ** api/config/kubeconfig.go *)

Module config.
Import schema meta errs.

(** A 64-bit signed integer after an arithmetic operation. *)
Definition wrap64 (z : Z) : Z :=
  ((z + 9223372036854775808) mod 18446744073709551616 - 9223372036854775808)%Z.

Section Config.

(** The library types the configuration only stores and passes on:
    [float32], the fields of [rest.Config] it never touches,
    [*kubernetes.Clientset], [*dynamic.DynamicClient],
    [[]*restmapper.APIGroupResources], [meta.RESTMapper],
    [informers.SharedInformerFactory], and the world outside the
    process. *)
Context {Float32 Rest Clientset DynamicClient Resources Mapper Factory W : Type}.

(** [rest.Config], by the three fields the options set. *)
Record RestConfig : Type := mkRestConfig
  { QPS : Float32; Burst : Z; Timeout : Z; others : Rest }.

(** [type K8sConfig struct]; a nil pointer, interface or error is [None]. *)
Record K8sConfig : Type := mkK8sConfig
  { Config : option RestConfig;
    Clientset_ : option Clientset;
    DynamicClient_ : option DynamicClient;
    RESTMapper_ : option Mapper;
    SharedInformerFactory : option Factory;
    e : option Error }.

(** The calls out of the package. *)
Record Env : Type := mkEnv
  { Getenv : W -> string -> string;
    HomeDir : W -> string;
    Join : list string -> string;
    BuildConfigFromFlags :
      W -> string -> string -> (option RestConfig * option error) * W;
    InClusterConfig : W -> (option RestConfig * option error) * W;
    NewClientset : W -> RestConfig -> (option Clientset * option error) * W;
    NewDynamicClient :
      W -> RestConfig -> (option DynamicClient * option error) * W;
    GetAPIGroupResources :
      W -> option Clientset -> (Resources * option error) * W;
    NewDiscoveryRESTMapper : Resources -> Mapper;
    StartInformers : W -> option Clientset -> Factory * W }.

Variable env : Env.

(** [func NewK8sConfig() *K8sConfig]. *)
Definition NewK8sConfig : K8sConfig :=
  mkK8sConfig None None None None None None.

(** [type K8sConfigOptionFunc func(k *K8sConfig)], by the three
    constructors the package offers (lines 145-167). *)
Inductive K8sConfigOptionFunc : Type :=
| WithQps (qps : Float32)
| WithBurst (b : Z)
| WithTimeout (timeout : Z).

Definition setConfig (k : K8sConfig) (cfg : RestConfig) : K8sConfig :=
  mkK8sConfig (Some cfg) (Clientset_ k) (DynamicClient_ k) (RESTMapper_ k)
              (SharedInformerFactory k) (e k).

Definition setError (k : K8sConfig) (err : Error) : K8sConfig :=
  mkK8sConfig (Config k) (Clientset_ k) (DynamicClient_ k) (RESTMapper_ k)
              (SharedInformerFactory k) (Some err).

(** Calling an option function on [k] (lines 145-167). *)
Definition applyOption (k : K8sConfig) (optfunc : K8sConfigOptionFunc)
  : K8sConfig :=
  match Config k with
  | None => k
  | Some cfg =>
      match optfunc with
      | WithQps qps =>
          setConfig k (mkRestConfig qps (Burst cfg) (Timeout cfg) (others cfg))
      | WithBurst b =>
          setConfig k (mkRestConfig (QPS cfg) b (Timeout cfg) (others cfg))
      | WithTimeout timeout =>
          setConfig k (mkRestConfig (QPS cfg) (Burst cfg)
                                    (wrap64 (timeout * 1000000000))
                                    (others cfg))
      end
  end.

(** [func (k *K8sConfig) InitRestConfig(optfuncs ...K8sConfigOptionFunc)
    *K8sConfig]. *)
Definition InitRestConfig (optfuncs : list K8sConfigOptionFunc)
  (k : K8sConfig) (w : W) : K8sConfig * W :=
  let kubeConfigPath := Getenv env w "KUBECONFIG" in
  let kubeConfigPath :=
    if String.eqb kubeConfigPath ""
    then Join env [HomeDir env w; ".kube"; "config"]
    else kubeConfigPath in
  let '((config, err), w1) := BuildConfigFromFlags env w "" kubeConfigPath in
  match err with
  | Some err =>
      (setError k (Wrap "failed to build config from flags" (Leaf err)), w1)
  | None =>
      let k1 :=
        mkK8sConfig config (Clientset_ k) (DynamicClient_ k) (RESTMapper_ k)
                    (SharedInformerFactory k) (e k) in
      (fold_left applyOption optfuncs k1, w1)
  end.

(** [func (k *K8sConfig) InitConfigInCluster() *K8sConfig]. *)
Definition InitConfigInCluster (k : K8sConfig) (w : W) : K8sConfig * W :=
  let '((config, err), w1) := InClusterConfig env w in
  match err with
  | Some err =>
      (setError k (Wrap "failed to get in-cluster config" (Leaf err)), w1)
  | None =>
      (mkK8sConfig config (Clientset_ k) (DynamicClient_ k) (RESTMapper_ k)
                   (SharedInformerFactory k) (e k), w1)
  end.

(** [func (k *K8sConfig) Error() error]. *)
Definition Error_ (k : K8sConfig) : option Error := e k.

(** [func (k *K8sConfig) InitClientSet() *kubernetes.Clientset]. *)
Definition InitClientSet (k : K8sConfig) (w : W)
  : option Clientset * K8sConfig * W :=
  match Config k with
  | None => (None, setError k (Leaf (Errorf "k8s config is nil" [])), w)
  | Some cfg =>
      let '((clientSet, err), w1) := NewClientset env w cfg in
      match err with
      | Some err =>
          (None, setError k (Wrap "failed to create clientset" (Leaf err)), w1)
      | None =>
          (clientSet,
           mkK8sConfig (Config k) clientSet (DynamicClient_ k) (RESTMapper_ k)
                       (SharedInformerFactory k) (e k),
           w1)
      end
  end.

(** [func (k *K8sConfig) InitDynamicClient() *dynamic.DynamicClient]. *)
Definition InitDynamicClient (k : K8sConfig) (w : W)
  : option DynamicClient * K8sConfig * W :=
  match Config k with
  | None => (None, setError k (Leaf (Errorf "k8s config is nil" [])), w)
  | Some cfg =>
      let '((dynamicClient, err), w1) := NewDynamicClient env w cfg in
      match err with
      | Some err =>
          (None,
           setError k (Wrap "failed to create dynamic client" (Leaf err)), w1)
      | None =>
          (dynamicClient,
           mkK8sConfig (Config k) (Clientset_ k) dynamicClient (RESTMapper_ k)
                       (SharedInformerFactory k) (e k),
           w1)
      end
  end.

(** Lines 102-107 and 121-126: make sure there is a clientset; [false]
    stands for the early [return nil]. *)
Definition ensureClientSet (k : K8sConfig) (w : W) : bool * K8sConfig * W :=
  match Clientset_ k with
  | None =>
      let '(_, k1, w1) := InitClientSet k w in
      match e k1 with
      | Some _ => (false, k1, w1)
      | None => (true, k1, w1)
      end
  | Some _ => (true, k, w)
  end.

(** [func (k *K8sConfig) InitRestMapper() meta.RESTMapper]. *)
Definition InitRestMapper (k : K8sConfig) (w : W)
  : option Mapper * K8sConfig * W :=
  let '(go, k1, w1) := ensureClientSet k w in
  if go then
    let '((gr, err), w2) := GetAPIGroupResources env w1 (Clientset_ k1) in
    match err with
    | Some err =>
        (None,
         setError k1 (Wrap "failed to get API group resources" (Leaf err)),
         w2)
    | None =>
        let mapper := NewDiscoveryRESTMapper env gr in
        (Some mapper,
         mkK8sConfig (Config k1) (Clientset_ k1) (DynamicClient_ k1)
                     (Some mapper) (SharedInformerFactory k1) (e k1),
         w2)
    end
  else (None, k1, w1).

(** [func (k *K8sConfig) InitInformer() informers.SharedInformerFactory];
    [StartInformers] stands for lines 128-137, from
    [NewSharedInformerFactory] to [WaitForCacheSync]. *)
Definition InitInformer (k : K8sConfig) (w : W)
  : option Factory * K8sConfig * W :=
  let '(go, k1, w1) := ensureClientSet k w in
  if go then
    let '(fact, w2) := StartInformers env w1 (Clientset_ k1) in
    (Some fact,
     mkK8sConfig (Config k1) (Clientset_ k1) (DynamicClient_ k1)
                 (RESTMapper_ k1) (Some fact) (e k1),
     w2)
  else (None, k1, w1).

End Config.

Arguments RestConfig : clear implicits.
Arguments K8sConfig : clear implicits.
Arguments Env : clear implicits.
Arguments K8sConfigOptionFunc : clear implicits.

End config.

(** ** An environment to configure against *)

Module settings.
Import schema meta errs.

(** An environment in which every call out of the package succeeds. *)
Definition calmEnv : config.Env nat unit unit unit unit unit unit unit :=
  config.mkEnv
    (fun _ _ => "")
    (fun _ => "/home/user")
    (fun parts => String.concat "/" parts)
    (fun w _ _ => ((Some (config.mkRestConfig 5 10%Z 0%Z tt), None), w))
    (fun w => ((None, Some (OtherError "not in a cluster")), w))
    (fun w _ => ((Some tt, None), w))
    (fun w _ => ((Some tt, None), w))
    (fun w _ => ((tt, None), w))
    (fun _ => tt)
    (fun w _ => (tt, w)).

(** A configuration on which an earlier step has failed. *)
Definition failed : config.K8sConfig nat unit unit unit unit unit :=
  config.mkK8sConfig (Some (config.mkRestConfig 5 10%Z 0%Z tt)) None None None
                     None (Some (Leaf (OtherError "earlier failure"))).

End settings.

(** * Properties *)

Import schema meta prog chain fixtures.

(** ** Case analysis on runs *)

(** One step of case analysis on a run: name the answer of the next call,
    or decide the next test. *)
Ltac answer :=
  match goal with
  | |- context [mapper_KindFor ?m ?s ?q] =>
      destruct (mapper_KindFor m s q) as [[? ?] ?] eqn:?
  | |- context [mapper_RESTMapping ?m ?s ?g ?v] =>
      destruct (mapper_RESTMapping m s g v) as [[? ?] ?] eqn:?
  | |- context [gvk_Empty ?g] => destruct (gvk_Empty g) eqn:?
  | |- context [IsNoMatchError ?e] => destruct (IsNoMatchError e) eqn:?
  | |- context [match ?o with Some _ => _ | None => _ end] =>
      destruct o eqn:?
  end.

Ltac answers := cbn; repeat (answer; cbn).

(** Identify the answer named by hypothesis [RM] with the one the case
    analysis named for the same call. *)
Ltac use_answer RM :=
  match type of RM with
  | ?call = _ =>
      match goal with
      | H : call = _ |- _ =>
          rewrite H in RM; injection RM; clear RM; intros; subst
      end
  end.

(** Open [mappingFor] of the service on a token known not to be empty,
    naming the two parses. *)
Ltac open_service tok gvr gr full gk :=
  unfold services.mappingFor;
  destruct (String.eqb_spec tok "") as [?|?];
  [ try congruence
  | destruct (ParseResourceArg tok) as [[gvr|] gr] eqn:?;
    destruct (ParseKindArg tok) as [[full|] gk] eqn:? ].

(** One step of case analysis on a run against a read-only mapper: the
    state an answer comes with is the state the call was made in, and an
    empty GVK is the zero value. *)
Ltac answer_ro RO :=
  match goal with
  | |- context [match ?o with Some _ => _ | None => _ end] =>
      is_var o; destruct o
  | |- context [IsNoMatchError ?e] => destruct (IsNoMatchError e)
  | |- context [gvk_Empty ?g] =>
      let E := fresh "E" in
      is_var g; destruct (gvk_Empty g) eqn:E;
      [destruct g as [[|? ?] [|? ?] [|? ?]]; try discriminate E|]
  | |- context [gvk_Empty (mkGVK ?a ?b ?c)] =>
      destruct (gvk_Empty (mkGVK a b c))
  | H : mapper_KindFor ?m ?s ?q = _ |- context [mapper_KindFor ?m ?s ?q] =>
      rewrite H
  | H : mapper_RESTMapping ?m ?s ?g ?v = _
    |- context [mapper_RESTMapping ?m ?s ?g ?v] =>
      rewrite H
  | |- context [mapper_KindFor ?m ?s ?q] =>
      let E := fresh "E" in
      let Q := fresh "Q" in
      pose proof (proj1 RO s q) as E;
      destruct (mapper_KindFor m s q) as [[? ?] ?] eqn:Q;
      cbn [snd] in E; subst
  | |- context [mapper_RESTMapping ?m ?s ?g ?v] =>
      let E := fresh "E" in
      let Q := fresh "Q" in
      pose proof (proj2 RO s g v) as E;
      destruct (mapper_RESTMapping m s g v) as [[? ?] ?] eqn:Q;
      cbn [snd] in E; subst
  end.

(** The same step against any mapper: the answer of a call is named
    together with the state it leaves. *)
Ltac answer_any :=
  match goal with
  | |- context [match ?o with Some _ => _ | None => _ end] =>
      is_var o; destruct o
  | |- context [IsNoMatchError ?e] => destruct (IsNoMatchError e)
  | |- context [gvk_Empty ?g] =>
      let E := fresh "E" in
      is_var g; destruct (gvk_Empty g) eqn:E;
      [destruct g as [[|? ?] [|? ?] [|? ?]]; try discriminate E|]
  | |- context [gvk_Empty (mkGVK ?a ?b ?c)] =>
      destruct (gvk_Empty (mkGVK a b c))
  | |- context [mapper_KindFor ?m ?s ?q] =>
      destruct (mapper_KindFor m s q) as [[? ?] ?]
  | |- context [mapper_RESTMapping ?m ?s ?g ?v] =>
      destruct (mapper_RESTMapping m s g v) as [[? ?] ?]
  end.

(** The same step against a mapper that is quiet on a miss ([QM]): a
    [RESTMapping] answer that carries an error comes with the state the
    call was made in. *)
Ltac answer_quiet QM :=
  match goal with
  | |- context [match ?o with Some _ => _ | None => _ end] =>
      is_var o; destruct o
  | |- context [IsNoMatchError ?e] => destruct (IsNoMatchError e)
  | |- context [gvk_Empty ?g] =>
      let E := fresh "E" in
      is_var g; destruct (gvk_Empty g) eqn:E;
      [destruct g as [[|? ?] [|? ?] [|? ?]]; try discriminate E|]
  | |- context [gvk_Empty (mkGVK ?a ?b ?c)] =>
      destruct (gvk_Empty (mkGVK a b c))
  | H : mapper_RESTMapping ?m ?s ?g ?v = _
    |- context [mapper_RESTMapping ?m ?s ?g ?v] =>
      rewrite H
  | |- context [mapper_KindFor ?m ?s ?q] =>
      destruct (mapper_KindFor m s q) as [[? ?] ?]
  | |- context [mapper_RESTMapping ?m ?s ?g ?v] =>
      let E := fresh "E" in
      let Q := fresh "Q" in
      pose proof (QM s g v) as E;
      destruct (mapper_RESTMapping m s g v) as [[? [?|]] ?] eqn:Q;
      cbn [fst snd] in E;
      [ specialize (E ltac:(discriminate)); subst | clear E ]
  end.

(** ** The parsers *)

Lemma CutDot_Some (s before after : string) :
  CutDot s = Some (before, after) -> s = before ++ "." ++ after.
Proof.
  revert before; induction s as [|c s IH]; intros before H; simpl in H.
  - discriminate.
  - destruct (Ascii.eqb_spec c ".") as [->|_].
    + injection H as <- <-. reflexivity.
    + destruct (CutDot s) as [[b a]|]; [|discriminate].
      injection H as <- <-. simpl. f_equal. now apply IH.
Qed.

Lemma CutDot_None (s : string) : CutDot s = None <-> CountDot s = 0.
Proof.
  induction s as [|c s IH]; simpl.
  - tauto.
  - destruct (Ascii.eqb c "."); simpl.
    + split; discriminate.
    + destruct (CutDot s) as [[b a]|].
      * split; [discriminate|]. intros H. now apply IH in H.
      * tauto.
Qed.

Lemma CutDot_count (s before after : string) :
  CutDot s = Some (before, after) -> CountDot s = S (CountDot after).
Proof.
  revert before; induction s as [|c s IH]; intros before H; simpl in *.
  - discriminate.
  - destruct (Ascii.eqb c "."); simpl.
    + now injection H as _ <-.
    + destruct (CutDot s) as [[b a]|]; [|discriminate].
      injection H as _ <-. now apply (IH b).
Qed.

(** [SplitN3] yields three segments exactly on the strings that hold two
    dots or more, so the guard on the count and the split agree. *)
Lemma SplitN3_None (arg : string) : SplitN3 arg = None <-> CountDot arg < 2.
Proof.
  unfold SplitN3.
  destruct (CutDot arg) as [[s0 rest]|] eqn:E0.
  - rewrite (CutDot_count _ _ _ E0).
    destruct (CutDot rest) as [[s1 s2]|] eqn:E1.
    + rewrite (CutDot_count _ _ _ E1). split; [discriminate|lia].
    + apply CutDot_None in E1. rewrite E1. split; [lia|reflexivity].
  - apply CutDot_None in E0. rewrite E0. split; [lia|reflexivity].
Qed.

Lemma ParseResourceArg_full (arg : string) :
  (exists gvr, fst (ParseResourceArg arg) = Some gvr) <-> 2 <= CountDot arg.
Proof.
  unfold ParseResourceArg; cbn [fst].
  destruct (Nat.leb_spec 2 (CountDot arg)) as [H|H].
  - destruct (SplitN3 arg) as [[[s0 s1] s2]|] eqn:E.
    + split; [intros _; exact H | intros _; eexists; reflexivity].
    + apply SplitN3_None in E. lia.
  - split; [intros [gvr E]; discriminate | lia].
Qed.

Lemma CountDot_app (a b : string) :
  CountDot (a ++ b) = CountDot a + CountDot b.
Proof.
  induction a as [|c a IH]; simpl; [reflexivity|]. rewrite IH. lia.
Qed.

Lemma CutDot_app (a b : string) :
  CountDot a = 0 -> CutDot (a ++ "." ++ b) = Some (a, b).
Proof.
  induction a as [|c a IH]; simpl; intros H; [reflexivity|].
  destruct (Ascii.eqb c "."); [discriminate|].
  simpl in IH. now rewrite IH.
Qed.

(** A token written [resource.version.group] parses to that triple. *)
Lemma ParseResourceArg_triple (resource version group : string) :
  CountDot resource = 0 ->
  CountDot version = 0 ->
  ParseResourceArg (resource ++ "." ++ version ++ "." ++ group)
  = (Some (mkGVR group version resource),
     mkGR (version ++ "." ++ group) resource).
Proof.
  intros HR HV. unfold ParseResourceArg, ParseGroupResource, SplitN3.
  rewrite (CutDot_app resource _ HR), (CutDot_app version _ HV).
  rewrite !CountDot_app, HR, HV. reflexivity.
Qed.

(** The two parses read the same segments. *)
Lemma ParseKindArg_ParseResourceArg (arg : string) :
  ParseKindArg arg =
  (match fst (ParseResourceArg arg) with
   | Some gvr => Some (mkGVK (gvr_Group gvr) (gvr_Version gvr) (gvr_Resource gvr))
   | None => None
   end,
   mkGK (gr_Group (snd (ParseResourceArg arg)))
        (gr_Resource (snd (ParseResourceArg arg)))).
Proof.
  unfold ParseKindArg, ParseResourceArg, ParseGroupKind, ParseGroupResource.
  cbn [fst snd]. destruct (Nat.leb 2 (CountDot arg)).
  - destruct (SplitN3 arg) as [[[s0 s1] s2]|];
      destruct (CutDot arg) as [[k g]|]; reflexivity.
  - destruct (CutDot arg) as [[k g]|]; reflexivity.
Qed.

Lemma gvk_Empty_true (g : GroupVersionKind) :
  gvk_Empty g = true <-> g = zeroGVK.
Proof.
  destruct g as [[|? ?] [|? ?] [|? ?]]; unfold gvk_Empty; simpl;
    split; intros H; try reflexivity; discriminate.
Qed.

(** A token with fewer than two dots, other than the empty token and the
    lone dot, has a non-empty group/kind reading. *)
Lemma ParseGroupKind_nonempty (tok : string) :
  tok <> "" -> tok <> "." ->
  gvk_Empty (gk_WithVersion (ParseGroupKind tok) "") = false.
Proof.
  intros Hne Hdot. unfold ParseGroupKind.
  destruct (CutDot tok) as [[kind group]|] eqn:E.
  - apply CutDot_Some in E. subst tok.
    destruct kind, group; try reflexivity. now elim Hdot.
  - destruct tok; [now elim Hne | reflexivity].
Qed.

(** ** Runs *)

Lemma run_pbind {S A B : Type} (m : RESTMapper S) (p : Prog A)
  (f : A -> Prog B) (s : S) :
  run m (pbind p f) s =
  let '(a, s1, tr1) := run m p s in
  let '(b, s2, tr2) := run m (f a) s1 in
  (b, s2, (tr1 ++ tr2)%list).
Proof.
  revert s; induction p as [a|input k IH|gk versions k IH|format args k IH];
    intros s; simpl.
  - now destruct (run m (f a) s) as [[b s2] tr2].
  - destruct (mapper_KindFor m s input) as [answer s1].
    rewrite IH. destruct (run m (k answer) s1) as [[a s2] tr].
    now destruct (run m (f a) s2) as [[b s3] tr2].
  - destruct (mapper_RESTMapping m s gk versions) as [answer s1].
    rewrite IH. destruct (run m (k answer) s1) as [[a s2] tr].
    now destruct (run m (f a) s2) as [[b s3] tr2].
  - rewrite IH. destruct (run m k s) as [[a s2] tr].
    now destruct (run m (f a) s2) as [[b s3] tr2].
Qed.

(** Against a read-only mapper no program changes the mapper's state. *)
Lemma run_ReadOnly {S A : Type} (m : RESTMapper S) (p : Prog A) (s : S) :
  ReadOnly m -> final (run m p s) = s.
Proof.
  intros [HK HM].
  revert s; induction p as [a|input k IH|gk versions k IH|format args k IH];
    intros s; simpl.
  - reflexivity.
  - specialize (HK s input).
    destruct (mapper_KindFor m s input) as [answer s1]. simpl in HK. subst s1.
    specialize (IH answer s).
    now destruct (run m (k answer) s) as [[a s2] tr].
  - specialize (HM s gk versions).
    destruct (mapper_RESTMapping m s gk versions) as [answer s1].
    simpl in HM. subst s1. specialize (IH answer s).
    now destruct (run m (k answer) s) as [[a s2] tr].
  - specialize (IH s). now destruct (run m k s) as [[a s2] tr].
Qed.

Lemma tableMapper_ReadOnly (rows : list RESTMapping) :
  ReadOnly (tableMapper rows).
Proof.
  split; intros; simpl.
  - now destruct (find _ rows).
  - now destruct (find _ rows).
Qed.

Lemma ReadOnly_QuietOnMiss {S : Type} (m : RESTMapper S) :
  ReadOnly m -> QuietOnMiss m.
Proof. intros [_ RO] s gk versions _. apply RO. Qed.

(** ** The service on a small cluster *)

Example resolve_pods :
  result (run (tableMapper cluster) (services.mappingFor "pods") tt)
  = (Some pods, None).
Proof. reflexivity. Qed.

(** The kind-shaped reading reaches the same mapping: [KindFor] knows no
    resource called [Pod], the lookup of the kind does. *)
Example resolve_Pod :
  run (tableMapper cluster) (services.mappingFor "Pod") tt
  = ((Some pods, None), tt,
     [EvKindFor (mkGVR "" "" "Pod")
                (zeroGVK, Some (NoResourceMatchError (mkGVR "" "" "Pod")));
      EvRESTMapping (mkGK "" "Pod") [""] (Some pods, None)]).
Proof. reflexivity. Qed.

Example resolve_pods_in_wrong_group :
  result (run (tableMapper cluster) (services.mappingFor "pods.apps") tt)
  = (None, Some (notFoundError "pods")).
Proof. reflexivity. Qed.

Example resolve_deployments_apps :
  result (run (tableMapper cluster) (services.mappingFor "deployments.apps") tt)
  = (Some deployments, None).
Proof. reflexivity. Qed.

Example resolve_nodes_cluster_scoped :
  option_map rm_Scope
    (fst (result (run (tableMapper cluster) (services.mappingFor "nodes") tt)))
  = Some RESTScopeNameRoot.
Proof. reflexivity. Qed.

(** A no-match error that reaches [mappingFor] wrapped in another error is
    a no-match error still: both [RESTMapping] lookups of [Pod] miss, and
    the call reports the missing resource type. *)
Example resolve_wrapped_no_match :
  run (wrappingMapper []) (services.mappingFor "Pod") tt
  = ((None, Some (notFoundError "Pod")), tt,
     [EvKindFor (mkGVR "" "" "Pod")
                (zeroGVK, Some (NoResourceMatchError (mkGVR "" "" "Pod")));
      EvRESTMapping (mkGK "" "Pod") [""]
        (None, Some (WrapError "discovery"
                               (NoKindMatchError (mkGK "" "Pod") [""])));
      EvRESTMapping (mkGK "" "Pod") [""]
        (None, Some (WrapError "discovery"
                               (NoKindMatchError (mkGK "" "Pod") [""])))]).
Proof. reflexivity. Qed.

(** ** Queries per call *)

(** C1, as stated, fails: on the token [a.b.c] against a mapper that knows
    none of its readings the service sends four queries (two [KindFor],
    the direct [RESTMapping] on the kind-shaped triple, the terminal
    [RESTMapping]), not at most three. *)
Lemma dotted_token_four_queries :
  ~ length (queries (trace (run (tableMapper cluster)
                                (services.mappingFor "a.b.c") tt))) <= 3.
Proof. vm_compute. lia. Qed.

(** C1 (amended): for every token and every REST mapper, in whatever state,
    one call of [mappingFor] sends at most four queries to the mapper,
    counting each [KindFor] and each [RESTMapping] call. *)
Theorem mappingFor_at_most_four_queries {S : Type} (m : RESTMapper S)
  (tok : string) (s : S) :
  length (queries (trace (run m (services.mappingFor tok) s))) <= 4.
Proof.
  open_service tok gvr gr full gk; [cbn; lia | | | |]; answers; lia.
Qed.

(** ** The empty token *)

(** C4: on the empty token [mappingFor] fails with the error "resource type
    cannot be empty" whatever the mapper and its state; the trace is empty,
    so no query reached the mapper, and the mapper's state is untouched. *)
Theorem empty_token_rejected {S : Type} (m : RESTMapper S) (s : S) :
  run m (services.mappingFor "") s = ((None, Some emptyTokenError), s, []).
Proof. reflexivity. Qed.

(** ** Determinism *)

(** Against a mapper with a state of its own the value returned is not
    the one the lookups of the starting state give: the warming mapper
    misses [Pod] once and then finds it, and the retry of lines 150-158
    sees the second answer. *)
Example warming_mapper_answers_change :
  result (run (warmingMapper cluster) (services.mappingFor "Pod") 0)
  = (Some pods, None)
  /\ resolution (kindAt (warmingMapper cluster) 0)
                (mappingAt (warmingMapper cluster) 0) "Pod"
     = (None, Some (notFoundError "Pod")).
Proof. split; reflexivity. Qed.

(** C9: against a mapper that queries leave unchanged, the value
    [mappingFor] returns (mapping and error alike) is [resolution], a
    function of the token and of what the mapper's two lookups answer in
    the state the call finds, and of nothing else; a second call on the
    same token, made after the first, returns the same value after the
    same exchange with the mapper, and the mapper is still in the state
    the first call found. *)
Theorem mappingFor_twice {S : Type} (m : RESTMapper S) (tok : string)
  (s : S) :
  ReadOnly m ->
  let first := run m (services.mappingFor tok) s in
  let second := run m (services.mappingFor tok) (final first) in
  result first = resolution (kindAt m s) (mappingAt m s) tok
  /\ result second = result first
  /\ trace second = trace first
  /\ final second = s.
Proof.
  intros RO first second. subst second.
  assert (E : final first = s) by (apply run_ReadOnly; exact RO).
  rewrite E. fold first. rewrite E.
  split; [|now repeat split].
  subst first.
  unfold resolution, kindAt, mappingAt, terminalResult, services.mappingFor.
  destruct (String.eqb tok ""); [reflexivity|].
  unfold gk_WithVersion, gvk_GroupKind.
  destruct (ParseResourceArg tok) as [[gvr|] gr];
    destruct (ParseKindArg tok) as [[full|] gk]; cbn.
  all: repeat (answer_ro RO; cbn).
  all: reflexivity.
Qed.

Lemma mappingFor_twice_witness :
  ReadOnly (tableMapper cluster)
  /\ (let first := run (tableMapper cluster) (services.mappingFor "pods") tt in
      let second :=
        run (tableMapper cluster) (services.mappingFor "pods") (final first) in
      result first
      = resolution (kindAt (tableMapper cluster) tt)
                   (mappingAt (tableMapper cluster) tt) "pods"
      /\ result second = result first
      /\ trace second = trace first
      /\ final second = tt).
Proof.
  assert (RO : ReadOnly (tableMapper cluster))
    by apply tableMapper_ReadOnly.
  split; [exact RO | exact (mappingFor_twice (tableMapper cluster) "pods" tt RO)].
Defined.

(** ** The kind-shaped early exit *)

(** C7: when the two [KindFor] steps leave [gvk] empty and the kind-shaped
    parse yields a fully specified, non-empty GVK, the next query is
    [RESTMapping(fullGVK.GroupKind(), fullGVK.Version)]; if its answer
    carries no error, that answer is what [mappingFor] returns, and the
    query is the last one of the call: the terminal step is not run. *)
Theorem direct_kind_mapping_returns {S : Type} (m : RESTMapper S)
  (tok : string) (s : S) (full : GroupVersionKind) (gk : GroupKind)
  (g : GroupVersionKind) (s1 : S) (tr1 : list event)
  (answer : MappingAnswer) (s2 : S) :
  ParseKindArg tok = (Some full, gk) ->
  gvk_Empty full = false ->
  run m (kindSteps tok) s = (g, s1, tr1) ->
  gvk_Empty g = true ->
  mapper_RESTMapping m s1 (gvk_GroupKind full) [gvk_Version full]
    = (answer, s2) ->
  let attempt :=
    EvRESTMapping (gvk_GroupKind full) [gvk_Version full] answer in
  (exists rest,
      trace (run m (services.mappingFor tok) s) = (tr1 ++ attempt :: rest)%list)
  /\ (snd answer = None ->
      run m (services.mappingFor tok) s = (answer, s2, (tr1 ++ [attempt])%list)).
Proof.
  intros PK NE KS GE RM attempt. subst attempt.
  revert KS. unfold kindSteps.
  open_service tok gvr gr full' gk'; try discriminate.
  - subst tok. discriminate.
  - injection PK as -> ->. rewrite NE.
    answers; intros KS; injection KS as <- <- <-; try congruence;
      use_answer RM;
      (split; [eexists; reflexivity | cbn; intros; congruence]).
  - exfalso.
    match goal with
    | K : ParseKindArg tok = _, R : ParseResourceArg tok = _ |- _ =>
        rewrite ParseKindArg_ParseResourceArg, R in K; discriminate K
    end.
Qed.

Lemma direct_kind_mapping_returns_witness :
  run (tableMapper cluster) (services.mappingFor "Deployment.v1.apps") tt
  = ((Some deployments, None), tt,
     (trace (run (tableMapper cluster) (kindSteps "Deployment.v1.apps") tt)
      ++ [EvRESTMapping (mkGK "apps" "Deployment") ["v1"]
                        (Some deployments, None)])%list).
Proof.
  refine (proj2 (direct_kind_mapping_returns (tableMapper cluster)
                   "Deployment.v1.apps" tt (mkGVK "apps" "v1" "Deployment")
                   (mkGK "v1.apps" "Deployment") zeroGVK tt _
                   (Some deployments, None) tt _ _ _ _ _) _);
    reflexivity.
Defined.

(** ** The synthesized group/kind and its repeated lookup *)

(** C10, as stated, fails on the token made of a lone dot: both [KindFor]
    steps leave [gvk] empty and the kind-shaped parse yields no fully
    specified GVK, yet the GVK synthesized from the parsed group/kind is
    itself empty, the guard of line 144 skips the attempt, and the call
    sends [RESTMapping] once, not twice, although that lookup fails. *)
Lemma lone_dot_single_lookup :
  let r := run (tableMapper cluster) (services.mappingFor ".") tt in
  fst (ParseKindArg ".") = None
  /\ gvk_Empty (result (run (tableMapper cluster) (kindSteps ".") tt)) = true
  /\ mappingCalls (trace r) = 1
  /\ snd (result r) <> None.
Proof. vm_compute. repeat split; discriminate. Qed.

(** C10 (amended): for every non-empty token other than the lone dot, when
    both [KindFor] steps leave [gvk] empty and the kind-shaped parse yields
    no fully specified GVK, the next query is [RESTMapping(groupKind, "")]
    on the parsed group/kind; when its answer carries an error, the
    terminal step sends the very same query again, nothing follows it, and
    the call returns what lines 151-158 make of the second answer: its
    mapping when it carries no error, the "doesn't have a resource type"
    error when its error is a no-match error, its error otherwise. *)
Theorem synthesized_kind_looked_up_twice {S : Type} (m : RESTMapper S)
  (tok : string) (s : S) (gk : GroupKind) (g : GroupVersionKind) (s1 : S)
  (tr1 : list event) (first : MappingAnswer) (s2 : S)
  (second : MappingAnswer) (s3 : S) :
  tok <> "" ->
  tok <> "." ->
  ParseKindArg tok = (None, gk) ->
  run m (kindSteps tok) s = (g, s1, tr1) ->
  gvk_Empty g = true ->
  mapper_RESTMapping m s1 gk [""] = (first, s2) ->
  mapper_RESTMapping m s2 gk [""] = (second, s3) ->
  (exists rest,
      trace (run m (services.mappingFor tok) s)
      = (tr1 ++ EvRESTMapping gk [""] first :: rest)%list)
  /\ (snd first <> None ->
      run m (services.mappingFor tok) s
      = (terminalResult (snd (ParseResourceArg tok)) second, s3,
         (tr1 ++ [EvRESTMapping gk [""] first;
                  EvRESTMapping gk [""] second])%list)).
Proof.
  intros NE ND PK KS GE RM1 RM2.
  assert (NG : gvk_Empty (gk_WithVersion gk "") = false).
  { pose proof (ParseGroupKind_nonempty tok NE ND) as H.
    unfold ParseKindArg in PK. injection PK as _ <-. exact H. }
  assert (EG : gvk_GroupKind (gk_WithVersion gk "") = gk) by now destruct gk.
  revert KS. unfold kindSteps.
  open_service tok gvr gr full' gk'; try discriminate.
  - exfalso.
    match goal with
    | K : ParseKindArg tok = _, R : ParseResourceArg tok = _ |- _ =>
        rewrite ParseKindArg_ParseResourceArg, R in K; discriminate K
    end.
  - injection PK as ->. rewrite NG, EG.
    answers; intros KS; injection KS as <- <- <-; try congruence;
      apply gvk_Empty_true in GE; subst; cbn in *;
      use_answer RM1; try use_answer RM2;
      (split; [eexists; reflexivity | cbn; intros; try congruence]);
      unfold terminalResult; cbn;
      repeat match goal with H : IsNoMatchError _ = _ |- _ => rewrite H end;
      reflexivity.
Qed.

Lemma synthesized_kind_looked_up_twice_witness :
  run (warmingMapper cluster) (services.mappingFor "Pod") 0
  = ((Some pods, None), 2,
     [EvKindFor (mkGVR "" "" "Pod")
                (zeroGVK, Some (NoResourceMatchError (mkGVR "" "" "Pod")));
      EvRESTMapping (mkGK "" "Pod") [""]
                    (None, Some (NoKindMatchError (mkGK "" "Pod") [""]));
      EvRESTMapping (mkGK "" "Pod") [""] (Some pods, None)]).
Proof.
  refine (proj2 (synthesized_kind_looked_up_twice (warmingMapper cluster)
                   "Pod" 0 (mkGK "" "Pod") zeroGVK 0
                   [EvKindFor (mkGVR "" "" "Pod")
                      (zeroGVK,
                       Some (NoResourceMatchError (mkGVR "" "" "Pod")))]
                   (None, Some (NoKindMatchError (mkGK "" "Pod") [""])) 1
                   (Some pods, None) 2 _ _ _ _ _ _ _) _);
    try reflexivity; discriminate.
Defined.

(** ** No-match reporting *)

(** C3, as stated, fails on the path where the [KindFor] steps resolved a
    non-empty GVK: [pods] against a mapper whose [KindFor] knows the
    resource while its [RESTMapping] finds no match for the kind.  Line 135
    returns the mapper's own no-match error, which names the kind and not
    the token, instead of the "doesn't have a resource type" error. *)
Lemma resolved_kind_no_match_passed_on :
  let r := run (staleMapper cluster) (services.mappingFor "pods") tt in
  gvk_Empty (result (run (staleMapper cluster) (kindSteps "pods") tt)) = false
  /\ result r = (None, Some (NoKindMatchError (mkGK "" "Pod") ["v1"]))
  /\ snd (result r) <> Some (notFoundError "pods").
Proof. vm_compute. repeat split; discriminate. Qed.

(** C3 (amended): when the last [RESTMapping] lookup of a call fails with a
    no-match error, then on the path where the [KindFor] steps left [gvk]
    empty [mappingFor] returns no mapping and the error "the server doesn't
    have a resource type %q" formatted with the resource segment of the
    token (what precedes its first dot); on the path where they resolved a
    non-empty GVK it returns the lookup's own answer, no-match error
    included, unchanged. *)
Theorem no_match_report {S : Type} (m : RESTMapper S) (tok : string) (s : S)
  (g : GroupVersionKind) (s1 : S) (tr1 : list event) (gk : GroupKind)
  (versions : list string) (mapping : option RESTMapping) (e : error) :
  tok <> "" ->
  run m (kindSteps tok) s = (g, s1, tr1) ->
  lastEvent (trace (run m (services.mappingFor tok) s))
  = Some (EvRESTMapping gk versions (mapping, Some e)) ->
  IsNoMatchError e = true ->
  result (run m (services.mappingFor tok) s)
  = if gvk_Empty g
    then (None,
          Some (notFoundError (gr_Resource (snd (ParseResourceArg tok)))))
    else (mapping, Some e).
Proof.
  intros NE KS LAST NM. revert KS LAST. unfold kindSteps.
  open_service tok gvr gr full gk'.
  all: answers; intros KS LAST; injection KS as <- <- <-;
    injection LAST; intros; subst;
    repeat match goal with H : gvk_Empty _ = _ |- _ => rewrite H end;
    try reflexivity; congruence.
Qed.

Lemma no_match_report_witness :
  result (run (tableMapper cluster) (services.mappingFor "pods.apps") tt)
  = (None, Some (notFoundError "pods")).
Proof.
  refine (no_match_report (tableMapper cluster) "pods.apps" tt zeroGVK tt _
            (mkGK "apps" "pods") [""] None
            (NoKindMatchError (mkGK "apps" "pods") [""]) _ _ _ _);
    try reflexivity; discriminate.
Defined.

(** ** Failures other than no-match *)

(** C6, as stated, fails: with discovery down for [KindFor] the lookup of
    [Pod] errors with "connection refused", a cause that is not a no-match
    condition, and [mappingFor] discards it (line 132 assigns the error to
    the blank identifier) and returns a mapping without any error. *)
Lemma kind_lookup_failure_discarded :
  let r := run (kindlessMapper cluster) (services.mappingFor "Pod") tt in
  In (EvKindFor (mkGVR "" "" "Pod")
                (zeroGVK, Some (OtherError "connection refused")))
     (trace r)
  /\ result r = (Some pods, None).
Proof. vm_compute. split; [left|]; reflexivity. Qed.

(** C6 (amended): when the last [RESTMapping] lookup of a call fails with
    an error that is not a no-match error, [mappingFor] fails with that
    very error value, as it is. *)
Theorem last_lookup_failure_surfaced {S : Type} (m : RESTMapper S)
  (tok : string) (s : S) (gk : GroupKind) (versions : list string)
  (mapping : option RESTMapping) (e : error) :
  lastEvent (trace (run m (services.mappingFor tok) s))
  = Some (EvRESTMapping gk versions (mapping, Some e)) ->
  IsNoMatchError e = false ->
  snd (result (run m (services.mappingFor tok) s)) = Some e.
Proof.
  intros LAST NM. revert LAST.
  open_service tok gvr gr full gk'; [subst; discriminate | | | |].
  all: answers; intros LAST; injection LAST; intros; subst;
    try reflexivity; congruence.
Qed.

Lemma last_lookup_failure_surfaced_witness :
  snd (result (run (mkRESTMapper
                      (mapper_KindFor (tableMapper cluster))
                      (fun s gk versions =>
                         ((None, Some (OtherError "connection refused")), s)))
                   (services.mappingFor "pods") tt))
  = Some (OtherError "connection refused").
Proof.
  refine (last_lookup_failure_surfaced _ "pods" tt (mkGK "" "Pod") ["v1"]
            None (OtherError "connection refused") _ _); reflexivity.
Defined.

(** ** What a successful call returns *)

(** C8, as stated, fails: against a mapper that registers kind [Pod]
    without a resource name, [mappingFor] on [Pod] returns successfully
    and the mapping it returns has an empty [Resource.Resource]. *)
Lemma unnamed_resource_returned :
  exists mapping,
    result (run (tableMapper [unnamed]) (services.mappingFor "Pod") tt)
    = (Some mapping, None)
    /\ gvr_Resource (rm_Resource mapping) = "".
Proof. exists unnamed. split; reflexivity. Qed.

(** C8 (amended): [mappingFor] hands back the answer of a [RESTMapping]
    lookup without inspecting it.  Hence, against a REST mapper whose
    [RESTMapping] answers without error only with a mapping that is
    present and names its resource, whenever [mappingFor] returns without
    error the mapping it returns is present and its [Resource.Resource] is
    a non-empty string. *)
Theorem success_returns_populated_mapping {S : Type} (m : RESTMapper S)
  (tok : string) (s : S) :
  AnswersPopulated m ->
  snd (result (run m (services.mappingFor tok) s)) = None ->
  Populated (fst (result (run m (services.mappingFor tok) s))).
Proof.
  intros AP.
  open_service tok gvr gr full gk; [subst; discriminate | | | |].
  all: answers; intros OK; try discriminate; cbn in OK; subst;
    match goal with
    | H : mapper_RESTMapping _ ?s0 ?g ?v = (?o, None, _) |- Populated ?o =>
        generalize (AP s0 g v); rewrite H; intros P; exact (P eq_refl)
    end.
Qed.

Lemma tableMapper_cluster_populated : AnswersPopulated (tableMapper cluster).
Proof.
  intros s gk versions. unfold tableMapper, cluster. cbn.
  repeat match goal with
         | |- context [if ?b then _ else _] => destruct b
         end; cbn; intros; try discriminate.
Qed.

Lemma success_returns_populated_mapping_witness :
  AnswersPopulated (tableMapper cluster)
  /\ Populated (fst (result (run (tableMapper cluster)
                                 (services.mappingFor "nodes") tt))).
Proof.
  split.
  - exact tableMapper_cluster_populated.
  - exact (success_returns_populated_mapping (tableMapper cluster) "nodes" tt
             tableMapper_cluster_populated eq_refl).
Defined.

(** ** The fully specified path *)

(** C5: for a token written [resource.version.group] (the rightmost
    segment the group, then the version, the leftmost the resource) whose
    triple is that of a mapping registered with the mapper, [mappingFor]
    returns that mapping, and the version of its GVK is the version
    segment of the token.  The call consists of [KindFor] on the fully
    specified triple and [RESTMapping] on the GVK found: neither the
    version-less [KindFor] nor the kind-shaped steps are run. *)
Theorem fully_specified_token_resolves {S : Type} (m : RESTMapper S)
  (resource version group : string) (s : S) (r : RESTMapping) :
  CountDot resource = 0 ->
  CountDot version = 0 ->
  rm_Resource r = mkGVR group version resource ->
  Registered m s r ->
  let call :=
    run m (services.mappingFor (resource ++ "." ++ version ++ "." ++ group)) s
  in
  result call = (Some r, None)
  /\ gvk_Version (rm_GroupVersionKind r) = version
  /\ exists e,
       trace call
       = [EvKindFor (mkGVR group version resource) (rm_GroupVersionKind r, e);
          EvRESTMapping (gvk_GroupKind (rm_GroupVersionKind r)) [version]
                        (Some r, None)].
Proof.
  intros HR HV GVR (NE & VE & e & s1 & s2 & KF & RM) call. subst call.
  rewrite GVR in VE, KF. cbn in VE. rewrite VE in RM.
  unfold services.mappingFor.
  destruct (String.eqb_spec (resource ++ "." ++ version ++ "." ++ group) "")
    as [E|_]; [now destruct resource|].
  rewrite (ParseResourceArg_triple resource version group HR HV).
  destruct (ParseKindArg _) as [[full|] gk].
  all: cbn; rewrite KF; cbn; rewrite NE; cbn; rewrite NE; cbn.
  all: unfold gvk_GroupKind in RM |- *; rewrite VE, RM; cbn.
  all: repeat split; try assumption; exists e; reflexivity.
Qed.

Lemma fully_specified_token_resolves_witness :
  let call :=
    run (tableMapper cluster) (services.mappingFor "deployments.v1.apps") tt
  in
  result call = (Some deployments, None)
  /\ gvk_Version (rm_GroupVersionKind deployments) = "v1"
  /\ exists e,
       trace call
       = [EvKindFor (mkGVR "apps" "v1" "deployments")
                    (mkGVK "apps" "v1" "Deployment", e);
          EvRESTMapping (mkGK "apps" "Deployment") ["v1"]
                        (Some deployments, None)].
Proof.
  refine (fully_specified_token_resolves (tableMapper cluster)
            "deployments" "v1" "apps" tt deployments eq_refl eq_refl eq_refl _).
  repeat split. exists None, tt, tt. split; reflexivity.
Defined.

(** ** The two copies of the chain *)

Lemma sameOutcome_refl (a : MappingAnswer) : sameOutcome a a.
Proof. destruct a as [mapping [e|]]; cbn; trivial. Qed.

(** C2, as stated, fails: the two functions are not copies of each other.
    On [Deployment.v1.apps] against a mapper that registers the
    deployments of [apps/v1], the service resolves the token through the
    kind-shaped triple (lines 138-148) while the example, which has no
    such step, fails with a no-match error. *)
Lemma kind_triple_resolved_by_service_only :
  result (run (tableMapper cluster)
              (services.mappingFor "Deployment.v1.apps") tt)
  = (Some deployments, None)
  /\ result (run (tableMapper cluster)
                 (restmapper.mappingFor "Deployment.v1.apps") tt)
     = (None, Some (NoKindMatchError (mkGK "v1.apps" "Deployment") [""])).
Proof. split; reflexivity. Qed.

(** The empty token is another place where the two differ: the service
    rejects it before any query, the example sends it to the mapper, and
    a mapper that registers a kind without a resource name resolves it. *)
Example empty_token_resolved_by_example_only :
  result (run (tableMapper [unnamed]) (services.mappingFor "") tt)
  = (None, Some emptyTokenError)
  /\ result (run (tableMapper [unnamed]) (restmapper.mappingFor "") tt)
     = (Some unnamed, None).
Proof. split; reflexivity. Qed.

(** So is the retry of lines 150-158 against a mapper that a miss
    changes: the warming mapper misses [Pod] once, the service asks again
    and succeeds, the example asked once and fails. *)
Example retry_resolved_by_service_only :
  gvk_Empty (result (run (warmingMapper cluster) (kindSteps "Pod") 0)) = true
  /\ directHit (warmingMapper cluster) 0 "Pod" = false
  /\ result (run (warmingMapper cluster) (services.mappingFor "Pod") 0)
     = (Some pods, None)
  /\ result (run (warmingMapper cluster) (restmapper.mappingFor "Pod") 0)
     = (None, Some (NoKindMatchError (mkGK "" "Pod") [""])).
Proof. repeat split. Qed.

(** C2 (amended): the two [mappingFor] functions agree (both return
    without error and return the same mapping, or both fail) on every
    token and every REST mapper in every state, these three cases apart:
    the direct lookup of the kind-shaped triple, which only the service
    has, succeeds ([directHit]); the token is empty and the example
    resolves it; the [KindFor] steps resolve nothing and the mapper
    changes state on a [RESTMapping] lookup that fails.  Where the
    [KindFor] steps resolve a non-empty GVK and the token is not empty,
    the two return the very same value, mapping and error, whatever the
    mapper does to its state. *)
Theorem mappingFor_copies_agree {S : Type} (m : RESTMapper S) (tok : string)
  (s : S) :
  QuietOnMiss m \/ gvk_Empty (result (run m (kindSteps tok) s)) = false ->
  (tok = "" -> snd (result (run m (restmapper.mappingFor tok) s)) <> None) ->
  directHit m s tok = false ->
  sameOutcome (result (run m (services.mappingFor tok) s))
              (result (run m (restmapper.mappingFor tok) s))
  /\ (tok <> "" ->
      gvk_Empty (result (run m (kindSteps tok) s)) = false ->
      result (run m (services.mappingFor tok) s)
      = result (run m (restmapper.mappingFor tok) s)).
Proof.
  destruct (String.eqb_spec tok "") as [->|NE].
  - intros _ NE _. specialize (NE eq_refl). split; [|intros C; now destruct C].
    revert NE.
    generalize (result (run m (restmapper.mappingFor "") s)).
    intros [mapping [e|]] NE; cbn in *; [exact I | congruence].
  - unfold directHit, kindSteps, services.mappingFor, restmapper.mappingFor.
    destruct (String.eqb_spec tok "") as [?|_]; [congruence|].
    rewrite (ParseKindArg_ParseResourceArg tok).
    unfold gk_WithVersion, gvk_GroupKind.
    destruct (ParseResourceArg tok) as [[gvr|] gr]; cbn.
    all: intros [QM|R] _ DH; (split; [|intros _ R']);
      revert DH; try revert R; try revert R'.
    all: repeat (first [answer_quiet QM | answer_any]; cbn).
    all: intros; try discriminate; try congruence;
      first [apply sameOutcome_refl | reflexivity | exact I | cbn; congruence].
Qed.

Lemma mappingFor_copies_agree_witness :
  QuietOnMiss (tableMapper cluster)
  /\ directHit (tableMapper cluster) tt "Deployment.v2.apps" = false
  /\ sameOutcome
       (result (run (tableMapper cluster)
                    (services.mappingFor "Deployment.v2.apps") tt))
       (result (run (tableMapper cluster)
                    (restmapper.mappingFor "Deployment.v2.apps") tt)).
Proof.
  assert (QM : QuietOnMiss (tableMapper cluster))
    by (apply ReadOnly_QuietOnMiss, tableMapper_ReadOnly).
  split; [exact QM|]. split; [reflexivity|].
  refine (proj1 (mappingFor_copies_agree (tableMapper cluster)
                   "Deployment.v2.apps" tt (or_introl QM) _ eq_refl)).
  discriminate.
Defined.

(** * Beyond the chain: shape of the runs, the example, the service *)

Import errs svc traces worlds.

(** ** The service's [mappingFor]: order and number of the queries *)

(** X1: on a non-empty token the service's [mappingFor] first sends one or
    two [KindFor] queries and then one or two [RESTMapping] queries, and
    nothing else; a token without a fully specified reading (fewer than two
    dots) gets a single [KindFor]. *)
Theorem mappingFor_kinds_then_mappings {S : Type} (m : RESTMapper S)
  (tok : string) (s : S) :
  tok <> "" ->
  exists ks ms,
    trace (run m (services.mappingFor tok) s) = (ks ++ ms)%list
    /\ forallb isKindFor ks = true
    /\ forallb isRESTMapping ms = true
    /\ 1 <= length ks <= 2
    /\ 1 <= length ms <= 2
    /\ (fst (ParseResourceArg tok) = None -> length ks = 1).
Proof.
  intros NE. open_service tok gvr gr full gk.
  all: answers; try congruence.
  all: first
    [ solve [eexists (cons _ nil), (cons _ nil);
             repeat split; cbn; first [reflexivity | lia | intros Q; discriminate Q]]
    | solve [eexists (cons _ nil), (cons _ (cons _ nil));
             repeat split; cbn; first [reflexivity | lia | intros Q; discriminate Q]]
    | solve [eexists (cons _ (cons _ nil)), (cons _ nil);
             repeat split; cbn; first [reflexivity | lia | intros Q; discriminate Q]]
    | solve [eexists (cons _ (cons _ nil)), (cons _ (cons _ nil));
             repeat split; cbn; first [reflexivity | lia | intros Q; discriminate Q]] ].
Qed.

Lemma mappingFor_kinds_then_mappings_witness :
  exists ks ms,
    trace (run (tableMapper cluster) (services.mappingFor "a.b.c") tt)
    = (ks ++ ms)%list
    /\ forallb isKindFor ks = true
    /\ forallb isRESTMapping ms = true
    /\ 1 <= length ks <= 2
    /\ 1 <= length ms <= 2
    /\ (fst (ParseResourceArg "a.b.c") = None -> length ks = 1).
Proof.
  apply (mappingFor_kinds_then_mappings (tableMapper cluster) "a.b.c" tt).
  discriminate.
Defined.

(** X2: the errors of the [KindFor] lookups play no part in what the
    service's [mappingFor] returns: against the same mapper with those
    errors blanked the call returns the same value and leaves the mapper in
    the same state. *)
Theorem kind_errors_play_no_part {S : Type} (m : RESTMapper S)
  (tok : string) (s : S) :
  result (run (muteKindErrors m) (services.mappingFor tok) s)
  = result (run m (services.mappingFor tok) s)
  /\ final (run (muteKindErrors m) (services.mappingFor tok) s)
     = final (run m (services.mappingFor tok) s).
Proof.
  unfold muteKindErrors.
  open_service tok gvr gr full gk; [split; reflexivity | | | |].
  all: answers; split; reflexivity.
Qed.

(** X3: whenever the service's [mappingFor] returns without error, the
    value it returns is, unchanged, the answer of the last query it sent,
    and that query is a [RESTMapping] lookup. *)
Theorem success_is_the_last_answer {S : Type} (m : RESTMapper S)
  (tok : string) (s : S) :
  snd (result (run m (services.mappingFor tok) s)) = None ->
  exists gk versions,
    lastEvent (trace (run m (services.mappingFor tok) s))
    = Some (EvRESTMapping gk versions
                          (result (run m (services.mappingFor tok) s))).
Proof.
  open_service tok gvr gr full gk; [subst; discriminate | | | |].
  all: answers; intros OK; try discriminate; cbn in OK; subst;
    eexists _, _; reflexivity.
Qed.

Lemma success_is_the_last_answer_witness :
  exists gk versions,
    lastEvent (trace (run (tableMapper cluster) (services.mappingFor "Pod") tt))
    = Some (EvRESTMapping gk versions
              (result (run (tableMapper cluster) (services.mappingFor "Pod") tt))).
Proof.
  exact (success_is_the_last_answer (tableMapper cluster) "Pod" tt eq_refl).
Defined.

(** ** The example's [mappingFor] *)

(** X4: for every token, the empty one included, the example's
    [mappingFor] sends two or three queries, exactly one of them a
    [RESTMapping] lookup, which is the last thing it does, and returns the
    answer of that lookup unchanged, error and all. *)
Theorem example_returns_its_only_lookup {S : Type} (m : RESTMapper S)
  (tok : string) (s : S) :
  mappingCalls (trace (run m (restmapper.mappingFor tok) s)) = 1
  /\ 2 <= length (queries (trace (run m (restmapper.mappingFor tok) s))) <= 3
  /\ exists gk versions,
       lastEvent (trace (run m (restmapper.mappingFor tok) s))
       = Some (EvRESTMapping gk versions
                             (result (run m (restmapper.mappingFor tok) s))).
Proof.
  unfold restmapper.mappingFor.
  destruct (ParseResourceArg tok) as [[gvr|] gr].
  all: answers; repeat split; try (cbn; lia); eexists _, _; reflexivity.
Qed.

(** X5: the example reports every failed [KindFor] lookup, once: it prints
    as many "Warning: Could not get kind ..." lines as [KindFor] answers
    came back with an error. *)
Theorem example_warns_of_each_failed_kind {S : Type} (m : RESTMapper S)
  (tok : string) (s : S) :
  length (filter isWarning (trace (run m (restmapper.mappingFor tok) s)))
  = length (filter isFailedKindFor
                   (trace (run m (restmapper.mappingFor tok) s))).
Proof.
  unfold restmapper.mappingFor.
  destruct (ParseResourceArg tok) as [[gvr|] gr].
  all: answers; reflexivity.
Qed.

(** X6: against a mapper that queries leave unchanged, the service
    resolves every non-empty token the example resolves. *)
Theorem service_resolves_what_example_resolves {S : Type}
  (m : RESTMapper S) (tok : string) (s : S) :
  ReadOnly m ->
  tok <> "" ->
  snd (result (run m (restmapper.mappingFor tok) s)) = None ->
  snd (result (run m (services.mappingFor tok) s)) = None.
Proof.
  intros RO NE.
  unfold services.mappingFor, restmapper.mappingFor.
  destruct (String.eqb_spec tok "") as [?|_]; [congruence|].
  rewrite (ParseKindArg_ParseResourceArg tok).
  unfold gk_WithVersion, gvk_GroupKind.
  destruct (ParseResourceArg tok) as [[gvr|] gr]; cbn.
  all: repeat (answer_ro RO; cbn).
  all: intros H; first [discriminate | reflexivity | exact H].
Qed.

Lemma service_resolves_what_example_resolves_witness :
  snd (result (run (tableMapper cluster) (services.mappingFor "Pod") tt)) = None.
Proof.
  refine (service_resolves_what_example_resolves (tableMapper cluster) "Pod" tt
            (tableMapper_ReadOnly cluster) _ eq_refl).
  discriminate.
Defined.

(** ** The service functions *)

(** One step of case analysis on a run of a service function or handler. *)
Ltac svc_answer :=
  match goal with
  | |- context [String.eqb ?a ""] => destruct (String.eqb_spec a "")
  | H : run ?m (services.mappingFor ?t) ?s = _
    |- context [run ?m (services.mappingFor ?t) ?s] =>
      rewrite H
  | H : cluster_Decode ?c ?y = _ |- context [cluster_Decode ?c ?y] =>
      rewrite H
  | |- context [run ?m (services.mappingFor ?t) ?s] =>
      destruct (run m (services.mappingFor t) s) as [[[? ?] ?] ?] eqn:?
  | |- context [cluster_Decode ?c ?y] =>
      destruct (cluster_Decode c y) as [? ?] eqn:?
  | |- context [cluster_ForResource ?c ?w ?g] =>
      destruct (cluster_ForResource c w g) as [[? ?] ?] eqn:?
  | |- context [cluster_List ?c ?w ?i ?n] =>
      destruct (cluster_List c w i n) as [[? ?] ?] eqn:?
  | |- context [cluster_Delete ?c ?w ?r ?n] =>
      destruct (cluster_Delete c w r n) as [? ?] eqn:?
  | |- context [cluster_Create ?c ?w ?r ?o] =>
      destruct (cluster_Create c w r o) as [[? ?] ?] eqn:?
  | |- context [controllers.ShouldBindJSON ?c] =>
      destruct (controllers.ShouldBindJSON c) as [? ?] eqn:?
  | |- context [match ?o with Some _ => _ | None => _ end] =>
      is_var o; destruct o
  | |- context [rm_Scope ?r] => destruct (rm_Scope r) eqn:?
  end.

Ltac svc_answers :=
  cbn -[run services.mappingFor];
  repeat (svc_answer; cbn -[run services.mappingFor]).

Lemma In_map_EvMapper {U I O : Type} (x : Event U I O) (tr : list event)
  (rest : list (Event U I O)) :
  (forall e, x <> EvMapper e) ->
  In x (List.map EvMapper tr ++ rest)%list <-> In x rest.
Proof.
  intros H. rewrite in_app_iff, in_map_iff. split; [|now right].
  intros [[e [E _]]|R]; [now elim (H e) | exact R].
Qed.

(** Refute the membership [H] of a cluster call in a trace that does not
    hold it. *)
Ltac in_cases H :=
  cbn in H;
  repeat first
    [ contradiction
    | discriminate H
    | rewrite In_map_EvMapper in H by discriminate; cbn in H
    | destruct H as [H|H] ].

(** Find a cluster call in a trace. *)
Ltac in_solve :=
  cbn;
  repeat first
    [ rewrite In_map_EvMapper by discriminate; cbn
    | left; reflexivity
    | right ].

Lemma filter_map_EvMapper {U I O : Type} (f : Event U I O -> bool)
  (tr : list event) (rest : list (Event U I O)) :
  (forall e, f (EvMapper e) = false) ->
  filter f (List.map EvMapper tr ++ rest)%list = filter f rest.
Proof.
  intros H. induction tr as [|e tr IH]; cbn; [reflexivity|].
  now rewrite H.
Qed.

Lemma flat_map_EvMapper {U I O B : Type} (f : Event U I O -> list B)
  (tr : list event) (rest : list (Event U I O)) :
  (forall e, f (EvMapper e) = []) ->
  flat_map f (List.map EvMapper tr ++ rest)%list = flat_map f rest.
Proof.
  intros H. induction tr as [|e tr IH]; cbn; [reflexivity|].
  now rewrite H.
Qed.

(** Drop the exchanges with the mapper from the responses of a trace. *)
Ltac only_responses :=
  unfold responses; cbn -[run services.mappingFor];
  rewrite ?flat_map_EvMapper by reflexivity; cbn -[run services.mappingFor].

(** Against a mapper that never answers [(nil, nil)], a call of
    [mappingFor] that returns without error returns a mapping. *)
Lemma mappingFor_present {S : Type} (m : RESTMapper S) (tok : string) (s : S) :
  AnswersPresent m ->
  snd (result (run m (services.mappingFor tok) s)) = None ->
  fst (result (run m (services.mappingFor tok) s)) <> None.
Proof.
  intros AP.
  open_service tok gvr gr full gk; [subst; discriminate | | | |].
  all: answers; intros OK; try discriminate; cbn in OK; subst; intros ->;
    match goal with
    | H : mapper_RESTMapping _ ?s0 ?g ?v = (None, None, ?s1) |- _ =>
        exact (AP s0 g v s1 H)
    end.
Qed.

(** X7: against a mapper whose [RESTMapping] never answers [(nil, nil)],
    [GetGVR], [DeleteResource] and [CreateResource] never run into a nil
    dereference; neither does [ListResource] when, in addition, the
    informer factory never answers [(nil, nil)]. *)
Theorem service_never_panics {U I O S C : Type} (GetNamespace : U -> string)
  (m : RESTMapper S) (c : Cluster U I O C) (tok ns name yaml : string)
  (s : S) (w : C) :
  AnswersPresent m ->
  outcome (exec m c (ResourceService.GetGVR tok) s w) <> Panicked
  /\ outcome (exec m c (ResourceService.DeleteResource tok ns name) s w)
     <> Panicked
  /\ outcome (exec m c (ResourceService.CreateResource GetNamespace tok yaml) s w)
     <> Panicked
  /\ (InformersPresent c ->
      outcome (exec m c (ResourceService.ListResource tok ns) s w)
      <> Panicked).
Proof.
  intros AP.
  unfold ResourceService.GetGVR, ResourceService.DeleteResource,
    ResourceService.CreateResource, ResourceService.ListResource,
    ResourceService.getResourceInterface.
  split; [|split; [|split; [|intros IP]]].
  all: svc_answers; try discriminate.
  all: try match goal with
           | H : run _ (services.mappingFor _) _ = (None, None, _, _) |- _ =>
               exfalso; generalize (mappingFor_present m tok s AP);
               rewrite H; intros MP; now apply MP
           end.
  all: match goal with
       | H : cluster_ForResource _ ?w0 ?g = (None, None, ?w1) |- _ =>
           exfalso; exact (IP w0 g w1 H)
       end.
Qed.

Lemma tableMapper_AnswersPresent (rows : list RESTMapping) :
  AnswersPresent (tableMapper rows).
Proof.
  intros s gk versions s1. cbn.
  destruct (find _ rows); discriminate.
Qed.

Lemma storeCluster_InformersPresent : InformersPresent storeCluster.
Proof. intros w gvr w1. cbn. discriminate. Qed.

Lemma service_never_panics_witness :
  AnswersPresent (tableMapper cluster)
  /\ outcome (exec (tableMapper cluster) storeCluster
                   (ResourceService.GetGVR "pods") tt [])
     <> Panicked.
Proof.
  split.
  - apply tableMapper_AnswersPresent.
  - exact (proj1 (service_never_panics fst (tableMapper cluster) storeCluster
                    "pods" "default" "web" "default/web" tt []
                    (tableMapper_AnswersPresent cluster))).
Defined.

(** X8: [DeleteResource] calls the cluster at most once, with [Delete],
    and only for a non-empty name after [mappingFor] returned a mapping
    without error; the call then asks for the name given, in the
    collection of the mapping's resource, within the namespace given
    exactly when the mapping is namespace-scoped. *)
Theorem DeleteResource_calls_cluster_once {U I O S C : Type}
  (m : RESTMapper S) (c : Cluster U I O C) (tok ns name : string)
  (s : S) (w : C) :
  let r := exec m c (ResourceService.DeleteResource tok ns name) s w in
  filter isClusterCall (events r) = []
  \/ exists mapping answer,
       name <> ""
       /\ result (run m (services.mappingFor tok) s) = (Some mapping, None)
       /\ filter isClusterCall (events r)
          = [EvDelete (collection mapping ns) name answer].
Proof.
  unfold ResourceService.DeleteResource, ResourceService.getResourceInterface,
    events, result, collection.
  svc_answers; rewrite ?filter_map_EvMapper by reflexivity;
    try (left; reflexivity);
    right; eexists _, _; (split; [eassumption | split; [reflexivity|]]);
    match goal with H : rm_Scope _ = _ |- _ => rewrite H end; reflexivity.
Qed.

(** X9: [DeleteResource] returns nil exactly when the cluster accepted a
    [Delete] of the name given. *)
Theorem DeleteResource_succeeds_iff_accepted {U I O S C : Type}
  (m : RESTMapper S) (c : Cluster U I O C) (tok ns name : string)
  (s : S) (w : C) :
  let r := exec m c (ResourceService.DeleteResource tok ns name) s w in
  outcome r = Returned None
  <-> exists ri, In (EvDelete ri name None) (events r).
Proof.
  unfold ResourceService.DeleteResource, ResourceService.getResourceInterface,
    events, outcome.
  svc_answers; split.
  all: first
    [ solve [intros Q; try discriminate Q; eexists; in_solve]
    | solve [intros [ri H]; try reflexivity; exfalso; in_cases H] ].
Qed.

(** X10: [CreateResource] calls the cluster at most once, with [Create],
    and only for a non-empty manifest that decodes, after [mappingFor]
    returned a mapping without error; what it creates is the decoded
    object, in the collection of the mapping's resource, within the
    namespace the object itself names exactly when the mapping is
    namespace-scoped. *)
Theorem CreateResource_calls_cluster_once {U I O S C : Type}
  (GetNamespace : U -> string) (m : RESTMapper S) (c : Cluster U I O C)
  (tok yaml : string) (s : S) (w : C) :
  let r := exec m c (ResourceService.CreateResource GetNamespace tok yaml) s w in
  filter isClusterCall (events r) = []
  \/ exists mapping answer,
       yaml <> ""
       /\ snd (cluster_Decode c yaml) = None
       /\ result (run m (services.mappingFor tok) s) = (Some mapping, None)
       /\ filter isClusterCall (events r)
          = [EvCreate (collection mapping
                         (GetNamespace (fst (cluster_Decode c yaml))))
                      (fst (cluster_Decode c yaml)) answer].
Proof.
  unfold ResourceService.CreateResource, ResourceService.getResourceInterface,
    events, result, collection.
  svc_answers; rewrite ?filter_map_EvMapper by reflexivity;
    try (left; reflexivity);
    right; eexists _, _;
    (split; [eassumption | split; [reflexivity | split; [reflexivity|]]]);
    cbn; match goal with H : rm_Scope _ = _ |- _ => rewrite H end;
    reflexivity.
Qed.

(** X11: [CreateResource] returns nil exactly when the cluster accepted a
    [Create]; and it turns to the mapper only with a non-empty manifest
    that decoded. *)
Theorem CreateResource_succeeds_iff_accepted {U I O S C : Type}
  (GetNamespace : U -> string) (m : RESTMapper S) (c : Cluster U I O C)
  (tok yaml : string) (s : S) (w : C) :
  let r := exec m c (ResourceService.CreateResource GetNamespace tok yaml) s w in
  (outcome r = Returned None
   <-> exists ri obj created, In (EvCreate ri obj (created, None)) (events r))
  /\ (filter isMapperQuery (events r) <> [] ->
      yaml <> "" /\ snd (cluster_Decode c yaml) = None).
Proof.
  unfold ResourceService.CreateResource, ResourceService.getResourceInterface,
    events, outcome.
  svc_answers; (split; [split|]).
  all: first
    [ solve [intros Q; try discriminate Q; eexists _, _, _; in_solve]
    | solve [intros (ri & obj & created & H); try reflexivity; exfalso;
             in_cases H]
    | solve [intros Q; now elim Q]
    | solve [intros _; split; [assumption | reflexivity]] ].
Qed.

(** X12: when [mappingFor] fails, none of the four service functions calls
    the cluster, and each reports that failure: [ListResource] and
    [GetGVR] return the error as it is, [DeleteResource] (given a name) and
    [CreateResource] (given a manifest that decodes) return it wrapped
    once, in "failed to get RESTMapping for <token>". *)
Theorem resolution_failure_stops_the_service {U I O S C : Type}
  (GetNamespace : U -> string) (m : RESTMapper S) (c : Cluster U I O C)
  (tok ns name yaml : string) (s : S) (w : C) (e : error) :
  snd (result (run m (services.mappingFor tok) s)) = Some e ->
  name <> "" ->
  yaml <> "" ->
  snd (cluster_Decode c yaml) = None ->
  let wrapped :=
    Wrapf "failed to get RESTMapping for %s: %w" [tok] (Leaf e) in
  let list := exec m c (ResourceService.ListResource tok ns) s w in
  let get := exec m c (ResourceService.GetGVR tok) s w in
  let del := exec m c (ResourceService.DeleteResource tok ns name) s w in
  let cre := exec m c (ResourceService.CreateResource GetNamespace tok yaml) s w in
  outcome list = Returned (None, Some (Leaf e))
  /\ outcome get = Returned (None, Some (Leaf e))
  /\ outcome del = Returned (Some wrapped)
  /\ outcome cre = Returned (Some wrapped)
  /\ filter isClusterCall (events list) = []
  /\ filter isClusterCall (events get) = []
  /\ filter isClusterCall (events del) = []
  /\ filter isClusterCall (events cre) = [].
Proof.
  intros FAIL NN NY DEC. revert FAIL DEC.
  unfold ResourceService.ListResource, ResourceService.GetGVR,
    ResourceService.DeleteResource, ResourceService.CreateResource,
    ResourceService.getResourceInterface, events, outcome, result.
  destruct (String.eqb_spec tok "") as [->|NT].
  - svc_answers; intros FAIL DEC; try contradiction; try discriminate DEC;
      match goal with
      | H : run _ (services.mappingFor "") _ = _ |- _ =>
          cbn in H; first [discriminate H | injection H; intros; subst]
      end;
      try (injection FAIL; intros; subst); repeat split; reflexivity.
  - svc_answers; intros FAIL DEC; try contradiction; try discriminate;
      injection FAIL as <-; rewrite ?filter_map_EvMapper by reflexivity;
      repeat split; reflexivity.
Qed.

Lemma resolution_failure_stops_the_service_witness :
  outcome (exec (tableMapper cluster) storeCluster
                (ResourceService.DeleteResource "pods.apps" "default" "web")
                tt [])
  = Returned (Some (Wrapf "failed to get RESTMapping for %s: %w" ["pods.apps"]
                          (Leaf (notFoundError "pods")))).
Proof.
  refine (proj1 (proj2 (proj2
            (resolution_failure_stops_the_service fst (tableMapper cluster)
               storeCluster "pods.apps" "default" "web" "default/web" tt []
               (notFoundError "pods") eq_refl _ _ eq_refl))));
    discriminate.
Defined.

(** X13: [ListResource] never writes to the cluster, and whatever the
    scope of the mapping it lists within the namespace it was given;
    [GetGVR] does not call the cluster at all. *)
Theorem ListResource_only_reads {U I O S C : Type} (m : RESTMapper S)
  (c : Cluster U I O C) (tok ns : string) (s : S) (w : C) :
  let r := exec m c (ResourceService.ListResource tok ns) s w in
  filter isWrite (events r) = []
  /\ (forall informer n answer,
        In (EvList informer n answer) (events r) -> n = ns)
  /\ filter isClusterCall (events (exec m c (ResourceService.GetGVR tok) s w))
     = [].
Proof.
  unfold ResourceService.ListResource, ResourceService.GetGVR, events.
  svc_answers; rewrite ?filter_map_EvMapper by reflexivity;
    (split; [reflexivity | split; [|reflexivity]]);
    intros inf0 ns0 answer0 H; in_cases H;
    injection H; intros; subst; reflexivity.
Qed.

(** ** The handlers *)

Import conduct.

(** X14: each of the four handlers writes exactly one response on every
    run that returns, and none on a run that dies of a nil dereference. *)
Theorem handlers_answer_once {U I O S C : Type} (GetNamespace : U -> string)
  (m : RESTMapper S) (c : Cluster U I O C) (req : controllers.Request)
  (s : S) (w : C) :
  answeredOnce (exec m c (controllers.List req) s w)
  /\ answeredOnce (exec m c (controllers.Delete req) s w)
  /\ answeredOnce (exec m c (controllers.Create GetNamespace req) s w)
  /\ answeredOnce (exec m c (controllers.GetGVR req) s w).
Proof.
  unfold answeredOnce, controllers.List, controllers.Delete,
    controllers.Create, controllers.GetGVR, ResourceService.ListResource,
    ResourceService.DeleteResource, ResourceService.CreateResource,
    ResourceService.GetGVR, ResourceService.getResourceInterface,
    events, outcome.
  repeat split; svc_answers; only_responses; reflexivity.
Qed.

(** X15: the status of a response tells its kind.  [List] and [Delete]
    answer 200 with data, or 400 or 500 with an error; [Create] answers
    201 with data, or 400 or 500 with an error; [GetGVR] answers 200 with
    data or 400 with an error, and never 500. *)
Theorem handler_status_codes {U I O S C : Type} (GetNamespace : U -> string)
  (m : RESTMapper S) (c : Cluster U I O C) (req : controllers.Request)
  (s : S) (w : C) :
  let data code (r : nat * Body O) :=
    fst r = code /\ isErrorBody (snd r) = false in
  let error code (r : nat * Body O) :=
    fst r = code /\ isErrorBody (snd r) = true in
  Forall (fun r => data 200 r \/ error 400 r \/ error 500 r)
         (responses (events (exec m c (controllers.List req) s w)))
  /\ Forall (fun r => data 200 r \/ error 400 r \/ error 500 r)
            (responses (events (exec m c (controllers.Delete req) s w)))
  /\ Forall (fun r => data 201 r \/ error 400 r \/ error 500 r)
            (responses
               (events (exec m c (controllers.Create GetNamespace req) s w)))
  /\ Forall (fun r => data 200 r \/ error 400 r)
            (responses (events (exec m c (controllers.GetGVR req) s w))).
Proof.
  unfold controllers.List, controllers.Delete,
    controllers.Create, controllers.GetGVR, ResourceService.ListResource,
    ResourceService.DeleteResource, ResourceService.CreateResource,
    ResourceService.GetGVR, ResourceService.getResourceInterface,
    events.
  cbv zeta.
  split; [|split; [|split]]; svc_answers; only_responses.
  all: repeat first [apply Forall_nil | apply Forall_cons]; cbn.
  all: first
    [ left; split; reflexivity
    | right; left; split; reflexivity
    | right; right; split; reflexivity
    | right; split; reflexivity ].
Qed.

(** X16: a 400 from [List], [Delete] or [Create] is all that happened: the
    handler returned after writing it, and neither the mapper nor the
    cluster was called or changed. *)
Theorem bad_request_does_nothing {U I O S C : Type}
  (GetNamespace : U -> string) (m : RESTMapper S) (c : Cluster U I O C)
  (req : controllers.Request) (s : S) (w : C) (body : Body O) :
  (In (400, body) (responses (events (exec m c (controllers.List req) s w))) ->
   exec m c (controllers.List req) s w
   = (Returned tt, s, w, [EvJSON 400 body]))
  /\ (In (400, body)
         (responses (events (exec m c (controllers.Delete req) s w))) ->
      exec m c (controllers.Delete req) s w
      = (Returned tt, s, w, [EvJSON 400 body]))
  /\ (In (400, body)
         (responses
            (events (exec m c (controllers.Create GetNamespace req) s w))) ->
      exec m c (controllers.Create GetNamespace req) s w
      = (Returned tt, s, w, [EvJSON 400 body])).
Proof.
  unfold controllers.List, controllers.Delete, controllers.Create,
    ResourceService.ListResource, ResourceService.DeleteResource,
    ResourceService.CreateResource, ResourceService.getResourceInterface,
    events.
  split; [|split]; svc_answers; only_responses.
  all: intros H; cbn in H; try contradiction; destruct H as [H|[]].
  all: first [discriminate H | injection H as <-; reflexivity].
Qed.

(** X17: the [Delete] handler answers 200 exactly when the cluster
    accepted a [Delete] of the name in the query; the [Create] handler
    answers 201 exactly when the cluster accepted a [Create]. *)
Theorem success_status_iff_accepted {U I O S C : Type}
  (GetNamespace : U -> string) (m : RESTMapper S) (c : Cluster U I O C)
  (req : controllers.Request) (s : S) (w : C) :
  let del := exec m c (controllers.Delete req) s w in
  let cre := exec m c (controllers.Create GetNamespace req) s w in
  ((exists body, In (200, body) (responses (events del)))
   <-> exists ri,
         In (EvDelete ri (controllers.Query req "name") None) (events del))
  /\ ((exists body, In (201, body) (responses (events cre)))
      <-> exists ri obj created,
            In (EvCreate ri obj (created, None)) (events cre)).
Proof.
  unfold controllers.Delete, controllers.Create,
    ResourceService.DeleteResource, ResourceService.CreateResource,
    ResourceService.getResourceInterface, events.
  cbv zeta. split; svc_answers; only_responses; split.
  all: first
    [ solve [intros [body H]; cbn in H; try contradiction;
             destruct H as [H|[]]; try discriminate H;
             first [solve [eexists _, _, _; in_solve] | solve [eexists; in_solve]]]
    | solve [intros [ri H]; first
               [ solve [eexists; left; reflexivity]
               | exfalso; in_cases H ]]
    | solve [intros (ri & obj & created & H); first
               [ solve [eexists; left; reflexivity]
               | exfalso; in_cases H ]] ].
Qed.

(** The run of [mappingFor] on a registered [resource.version.group]. *)
Lemma registered_triple_resolves {S : Type} (m : RESTMapper S)
  (resource version group : string) (s : S) (r : RESTMapping) :
  CountDot resource = 0 ->
  CountDot version = 0 ->
  rm_Resource r = mkGVR group version resource ->
  Registered m s r ->
  result (run m (services.mappingFor
                   (resource ++ "." ++ version ++ "." ++ group)) s)
  = (Some r, None).
Proof.
  intros HR HV GVR (NE & VE & e & s1 & s2 & KF & RM).
  rewrite GVR in VE, KF. cbn in VE. rewrite VE in RM.
  unfold services.mappingFor.
  destruct (String.eqb_spec (resource ++ "." ++ version ++ "." ++ group) "")
    as [E|_]; [now destruct resource|].
  rewrite (ParseResourceArg_triple resource version group HR HV).
  destruct (ParseKindArg _) as [[full|] gk].
  all: cbn; rewrite KF; cbn; rewrite NE; cbn; rewrite NE; cbn.
  all: unfold gvk_GroupKind in RM |- *; rewrite VE, RM; reflexivity.
Qed.

(** X18: asked for a token written [resource.version.group] whose triple
    is that of a mapping registered with the mapper, the [GetGVR] handler
    answers 200 with exactly that triple, and nothing else. *)
Theorem GetGVR_answers_registered_triple {U I O S C : Type}
  (m : RESTMapper S) (c : Cluster U I O C) (req : controllers.Request)
  (resource version group : string) (s : S) (w : C) (r : RESTMapping) :
  CountDot resource = 0 ->
  CountDot version = 0 ->
  controllers.Query req "resource"
  = resource ++ "." ++ version ++ "." ++ group ->
  rm_Resource r = mkGVR group version resource ->
  Registered m s r ->
  responses (events (exec m c (controllers.GetGVR req) s w))
  = [(200, DataGVR (mkGVR group version resource))].
Proof.
  intros HR HV Q GVR REG.
  pose proof (registered_triple_resolves m resource version group s r
                HR HV GVR REG) as RUN.
  unfold controllers.GetGVR, ResourceService.GetGVR, events, result in *.
  rewrite Q.
  destruct (String.eqb_spec (resource ++ "." ++ version ++ "." ++ group) "")
    as [E|_]; [now destruct resource|].
  cbn -[run services.mappingFor].
  destruct (run m (services.mappingFor _) s) as [[[mapping err] s1] tr].
  cbn in RUN. injection RUN as -> ->.
  only_responses. now rewrite GVR.
Qed.

Lemma GetGVR_answers_registered_triple_witness :
  responses
    (events (exec (tableMapper cluster) storeCluster
                  (controllers.GetGVR
                     (request "" [("resource", "deployments.v1.apps")]
                              ("", None))) tt []))
  = [(200, DataGVR (mkGVR "apps" "v1" "deployments"))].
Proof.
  refine (GetGVR_answers_registered_triple (tableMapper cluster) storeCluster
            (request "" [("resource", "deployments.v1.apps")] ("", None))
            "deployments" "v1" "apps" tt [] deployments
            eq_refl eq_refl eq_refl eq_refl _).
  repeat split. exists None, tt, tt. split; reflexivity.
Defined.

(** ** The service on a small cluster *)

Example delete_stored_pod :
  exec (tableMapper cluster) storeCluster
       (ResourceService.DeleteResource "pods" "default" "web") tt
       [(Namespace (mkGVR "" "v1" "pods") "default", "web")]
  = (Returned None, tt, [],
     (List.map EvMapper
        (trace (run (tableMapper cluster) (services.mappingFor "pods") tt))
      ++ [EvDelete (Namespace (mkGVR "" "v1" "pods") "default") "web" None])%list).
Proof. reflexivity. Qed.

Example delete_missing_pod :
  responses
    (events
       (exec (tableMapper cluster) storeCluster
             (controllers.Delete (request "pods" [("name", "web")] ("", None)))
             tt []))
  = [(500,
      ErrorBody
        (ErrorText (Wrapf "failed to delete %s/%s: %w" ["pods"; "web"]
                          (Leaf (OtherError "not found")))))].
Proof. reflexivity. Qed.

Example create_then_list :
  let '(_, s1, w1, _) :=
    exec (tableMapper cluster) storeCluster
         (controllers.Create fst (request "pods" [] ("default/web", None)))
         tt [] in
  responses
    (events (exec (tableMapper cluster) storeCluster
                  (controllers.List (request "pods" [] ("", None))) s1 w1))
  = [(200, DataObjects (Some ["web"]))].
Proof. reflexivity. Qed.

Example nodes_ignore_the_namespace :
  filter isClusterCall
    (events (exec (tableMapper cluster) storeCluster
                  (ResourceService.DeleteResource "nodes" "default" "n1") tt []))
  = [EvDelete (Resource (mkGVR "" "v1" "nodes")) "n1"
              (Some (OtherError "not found"))].
Proof. reflexivity. Qed.

(** ** The events of a pod *)

Lemma warnings_onto (items : list PodLogEventService.Event)
  (acc : list string) :
  fold_left
    (fun podEvents event =>
       if String.eqb (PodLogEventService.Type_ event) "Warning"
       then PodLogEventService.append podEvents
              (PodLogEventService.Message event)
       else podEvents)
    items (Some acc)
  = Some (acc ++ List.map PodLogEventService.Message
                  (filter (fun event =>
                             String.eqb (PodLogEventService.Type_ event)
                                        "Warning")
                          items))%list.
Proof.
  revert acc; induction items as [|event items IH]; intros acc; cbn.
  - now rewrite app_nil_r.
  - destruct (String.eqb (PodLogEventService.Type_ event) "Warning"); cbn.
    + rewrite IH, <- app_assoc. reflexivity.
    + apply IH.
Qed.

Lemma warnings_are_the_warnings (items : list PodLogEventService.Event) :
  PodLogEventService.warnings items
  = match List.map PodLogEventService.Message
            (filter (fun event =>
                       String.eqb (PodLogEventService.Type_ event) "Warning")
                    items) with
    | [] => None
    | messages => Some messages
    end.
Proof.
  unfold PodLogEventService.warnings.
  induction items as [|event items IH]; cbn; [reflexivity|].
  destruct (String.eqb (PodLogEventService.Type_ event) "Warning"); cbn.
  - apply warnings_onto.
  - apply IH.
Qed.

(** X19: when the listing succeeds, [GetEvents] returns the messages of
    exactly the listed events whose type is [Warning], in the order of
    the listing, and a nil slice when there is none. *)
Theorem GetEvents_returns_the_warnings {W : Type}
  (List : W -> string -> string ->
          (option (list PodLogEventService.Event) * option error) * W)
  (w : W) (ns podname : string)
  (items : list PodLogEventService.Event) (w1 : W) :
  podname <> "" ->
  List w ns (PodLogEventService.FieldSelector podname)
  = ((Some items, None), w1) ->
  PodLogEventService.GetEvents List w ns podname
  = (Returned
       (match List.map PodLogEventService.Message
                (filter (fun event =>
                           String.eqb (PodLogEventService.Type_ event)
                                      "Warning")
                        items) with
        | [] => None
        | messages => Some messages
        end, None),
     w1).
Proof.
  intros NE L. unfold PodLogEventService.GetEvents.
  destruct (String.eqb_spec podname "") as [?|_]; [contradiction|].
  rewrite L. now rewrite warnings_are_the_warnings.
Qed.

Lemma GetEvents_returns_the_warnings_witness :
  PodLogEventService.GetEvents
    (fun (w : unit) (ns selector : string) =>
       ((Some [PodLogEventService.mkEvent "Normal" "Scheduled";
               PodLogEventService.mkEvent "Warning" "BackOff";
               PodLogEventService.mkEvent "Warning" "Unhealthy"], None), w))
    tt "default" "web"
  = (Returned (Some ["BackOff"; "Unhealthy"], None), tt).
Proof.
  refine (GetEvents_returns_the_warnings _ tt "default" "web" _ tt _ eq_refl).
  discriminate.
Defined.

(** ** The configuration *)

Lemma options_keep_error
  {Float32 Rest Clientset DynamicClient Factory Mapper : Type}
  (optfuncs : list (config.K8sConfigOptionFunc Float32))
  (k : config.K8sConfig Float32 Rest Clientset DynamicClient Mapper Factory) :
  config.e (fold_left config.applyOption optfuncs k) = config.e k.
Proof.
  revert k; induction optfuncs as [|o optfuncs IH]; intros k; cbn;
    [reflexivity|].
  rewrite IH. unfold config.applyOption.
  destruct (config.Config k); [destruct o|]; reflexivity.
Qed.

Section ConfigProperties.

Context {Float32 Rest Clientset DynamicClient Resources Mapper Factory W : Type}.
Variable env :
  config.Env Float32 Rest Clientset DynamicClient Resources Mapper Factory W.

(** One step of case analysis on a run of a configuration method. *)
Ltac config_answer :=
  match goal with
  | |- context [config.BuildConfigFromFlags ?e ?w ?a ?b] =>
      destruct (config.BuildConfigFromFlags e w a b) as [[? ?] ?]
  | |- context [config.InClusterConfig ?e ?w] =>
      destruct (config.InClusterConfig e w) as [[? ?] ?]
  | |- context [config.NewClientset ?e ?w ?c] =>
      destruct (config.NewClientset e w c) as [[? ?] ?]
  | |- context [config.NewDynamicClient ?e ?w ?c] =>
      destruct (config.NewDynamicClient e w c) as [[? ?] ?]
  | |- context [config.GetAPIGroupResources ?e ?w ?c] =>
      destruct (config.GetAPIGroupResources e w c) as [[? ?] ?]
  | |- context [config.StartInformers ?e ?w ?c] =>
      destruct (config.StartInformers e w c) as [? ?]
  | |- context [match ?o with Some _ => _ | None => _ end] =>
      is_var o; destruct o
  end.

Ltac config_answers k :=
  unfold config.InitRestConfig, config.InitConfigInCluster,
    config.InitRestMapper, config.InitInformer, config.ensureClientSet,
    config.InitClientSet, config.InitDynamicClient, config.setError;
  destruct k as [cfg cs dyn mapper fact err];
  cbn; repeat (config_answer; cbn).

(** X20: an error, once recorded, stays: no method of the configuration
    and none of the package's option functions clears [Error()]. *)
Theorem config_error_stays
  (k : config.K8sConfig Float32 Rest Clientset DynamicClient Mapper Factory)
  (w : W)
  (optfuncs : list (config.K8sConfigOptionFunc Float32)) :
  config.e k <> None ->
  config.e (fst (config.InitRestConfig env optfuncs k w)) <> None
  /\ config.e (fst (config.InitConfigInCluster env k w)) <> None
  /\ config.e (snd (fst (config.InitClientSet env k w))) <> None
  /\ config.e (snd (fst (config.InitDynamicClient env k w))) <> None
  /\ config.e (snd (fst (config.InitRestMapper env k w))) <> None
  /\ config.e (snd (fst (config.InitInformer env k w))) <> None
  /\ config.e (fold_left config.applyOption optfuncs k) <> None.
Proof.
  intros E. rewrite options_keep_error.
  repeat split; try exact E; revert E; config_answers k;
    rewrite ?options_keep_error; cbn; intros E; try discriminate; exact E.
Qed.

(** X21: an error left by an earlier step stops [InitRestMapper] and
    [InitInformer] when there is no clientset yet: they return nil and
    leave the mapper and the factory as they were, whether or not the
    clientset could be created. *)
Theorem stale_error_blocks
  (k : config.K8sConfig Float32 Rest Clientset DynamicClient Mapper Factory)
  (w : W) :
  config.e k <> None ->
  config.Clientset_ k = None ->
  fst (fst (config.InitRestMapper env k w)) = None
  /\ config.RESTMapper_ (snd (fst (config.InitRestMapper env k w)))
     = config.RESTMapper_ k
  /\ fst (fst (config.InitInformer env k w)) = None
  /\ config.SharedInformerFactory (snd (fst (config.InitInformer env k w)))
     = config.SharedInformerFactory k.
Proof.
  intros E CS. revert E CS. config_answers k; intros E CS;
    try discriminate; try (now elim E); repeat split; reflexivity.
Qed.

(** X22: on a configuration without a recorded error, [InitRestMapper]
    and [InitInformer] return nil exactly when they record an error. *)
Theorem nil_return_means_error
  (k : config.K8sConfig Float32 Rest Clientset DynamicClient Mapper Factory)
  (w : W) :
  config.e k = None ->
  (fst (fst (config.InitRestMapper env k w)) = None
   <-> config.e (snd (fst (config.InitRestMapper env k w))) <> None)
  /\ (fst (fst (config.InitInformer env k w)) = None
      <-> config.e (snd (fst (config.InitInformer env k w))) <> None).
Proof.
  intros E. revert E. config_answers k; intros E; try discriminate;
    (split; split); try discriminate; try reflexivity;
    try (intros Q; now elim Q).
Qed.

(** X23: on a configuration that has a [rest.Config], [WithTimeout] of a
    number of seconds between -9223372036 and 9223372036 sets the timeout
    to that many seconds in nanoseconds, without overflow, and leaves the
    other settings alone. *)
Theorem WithTimeout_in_range
  (k : config.K8sConfig Float32 Rest Clientset DynamicClient Mapper Factory)
  (cfg : config.RestConfig Float32 Rest) (timeout : Z) :
  config.Config k = Some cfg ->
  (-9223372036 <= timeout <= 9223372036)%Z ->
  config.Config (config.applyOption k (config.WithTimeout timeout))
  = Some (config.mkRestConfig (config.QPS cfg) (config.Burst cfg)
                              (timeout * 1000000000)%Z (config.others cfg)).
Proof.
  intros C R. unfold config.applyOption. rewrite C. cbn.
  do 2 f_equal. unfold config.wrap64.
  rewrite Z.mod_small by lia. lia.
Qed.

End ConfigProperties.

Lemma config_error_stays_witness :
  config.e (snd (fst (config.InitRestMapper settings.calmEnv settings.failed tt)))
  <> None.
Proof.
  refine (proj1 (proj2 (proj2 (proj2 (proj2
            (config_error_stays settings.calmEnv settings.failed tt [] _)))))).
  discriminate.
Defined.

Lemma stale_error_blocks_witness :
  fst (fst (config.InitRestMapper settings.calmEnv settings.failed tt)) = None.
Proof.
  refine (proj1 (stale_error_blocks settings.calmEnv settings.failed tt _ eq_refl)).
  discriminate.
Defined.

Lemma nil_return_means_error_witness :
  fst (fst (config.InitRestMapper settings.calmEnv config.NewK8sConfig tt)) = None
  <-> config.e (snd (fst (config.InitRestMapper settings.calmEnv
                            config.NewK8sConfig tt))) <> None.
Proof.
  exact (proj1 (nil_return_means_error settings.calmEnv config.NewK8sConfig tt
                  eq_refl)).
Defined.

Lemma WithTimeout_in_range_witness :
  config.Config (config.applyOption
                   (config.mkK8sConfig
                      (Some (config.mkRestConfig 5 10%Z 0%Z tt))
                      (@None unit) (@None unit) (@None unit) (@None unit) None)
                   (config.WithTimeout 30))
  = Some (config.mkRestConfig 5 10%Z (30 * 1000000000)%Z tt).
Proof.
  refine (WithTimeout_in_range
            (config.mkK8sConfig
               (Some (config.mkRestConfig 5 10%Z 0%Z tt))
               (@None unit) (@None unit) (@None unit) (@None unit) None)
            (config.mkRestConfig 5 10%Z 0%Z tt) 30%Z eq_refl _).
  lia.
Defined.
